(** * ContractReviewAssistant: the review pipeline of [crew/crew.py]

    A shallow embedding of the orchestration code of the repository:
    [ContractReviewCrew.review_contract] and its helpers in [crew/crew.py],
    the three agents of [agents/] as far as the orchestration observes
    them, and [RedlineSuggesterAgent.prioritize_changes].

    Modelling choices.
    - A Python [str] is a Rocq [string], one [ascii] per character: the
      model covers the strings whose characters have a code point below
      256, on which [str.lower], [str.strip], slicing and [len] are
      modelled exactly.
    - A value read from the inference service is a [json] value, the
      result of [json.loads]; a Python [dict] is an association list in
      insertion order, looked up by its first matching key.  A float is
      represented by the rational it denotes (NaN and the infinities are
      left out).
    - An operation that raises in Python returns [Raise msg], [msg] being
      [str(e)]; [try ... except Exception as e] is [try_except].
    - The inference client is a function from requests to responses; every
      call is appended to a log, so that the calls a run makes can be
      counted.  [print] only matters through the expressions it evaluates,
      which are evaluated here and their value dropped. *)

From Stdlib Require Import String Ascii List ZArith QArith Lia Bool.
From Stdlib Require Import DecimalString.
Import ListNotations.

Close Scope Q_scope.
Open Scope Z_scope.
Open Scope list_scope.
Open Scope string_scope.

(** ** Python strings *)

Module PyStr.

Definition code (c : ascii) : nat := nat_of_ascii c.

(** [c.isspace()] on the characters below 256. *)
Definition isspace (c : ascii) : bool :=
  let n := code c in
  ((9 <=? n) && (n <=? 13) || (28 <=? n) && (n <=? 32)
   || (n =? 133) || (n =? 160))%nat.

(** [c.lower()] on the characters below 256: A-Z, and the capital
    letters of Latin-1 (U+00C0..U+00DE but the multiplication sign). *)
Definition lower_char (c : ascii) : ascii :=
  let n := code c in
  if ((65 <=? n) && (n <=? 90)
      || (192 <=? n) && (n <=? 222) && negb (n =? 215))%nat
  then ascii_of_nat (n + 32) else c.

Fixpoint lower (s : string) : string :=
  match s with
  | EmptyString => EmptyString
  | String c r => String (lower_char c) (lower r)
  end.

Definition is_empty (s : string) : bool :=
  match s with EmptyString => true | String _ _ => false end.

Fixpoint lstrip (s : string) : string :=
  match s with
  | EmptyString => EmptyString
  | String c r => if isspace c then lstrip r else s
  end.

Fixpoint rstrip (s : string) : string :=
  match s with
  | EmptyString => EmptyString
  | String c r =>
      let r' := rstrip r in
      if isspace c && is_empty r' then EmptyString else String c r'
  end.

(** [s.strip()] *)
Definition strip (s : string) : string := rstrip (lstrip s).

(** [s[:n]] for a non-negative [n]. *)
Definition take (n : nat) (s : string) : string := substring 0 n s.

Fixpoint is_prefix (p s : string) : bool :=
  match p, s with
  | EmptyString, _ => true
  | String a p', String b s' => Ascii.eqb a b && is_prefix p' s'
  | String _ _, EmptyString => false
  end.

(** [needle in hay] for two strings. *)
Fixpoint is_infix (needle hay : string) : bool :=
  is_prefix needle hay
  || match hay with
     | EmptyString => false
     | String _ hay' => is_infix needle hay'
     end.

(** [sep.join(parts)] *)
Definition join (sep : string) (parts : list string) : string :=
  String.concat sep parts.

(** The characters of [s], each as a string of length one. *)
Fixpoint chars (s : string) : list string :=
  match s with
  | EmptyString => []
  | String c r => String c EmptyString :: chars r
  end.

(** [str(n)] for an [int]. *)
Definition of_int (n : Z) : string := NilZero.string_of_int (Z.to_int n).

End PyStr.

(** ** JSON values and the Python operations applied to them *)

#[local] Unset Elimination Schemes.
Inductive json : Type :=
| JNull
| JBool (b : bool)
| JInt (n : Z)
| JFloat (q : Q)
| JStr (s : string)
| JList (l : list json)
| JDict (d : list (string * json)).
#[local] Set Elimination Schemes.

Inductive res (A : Type) : Type :=
| Ok (a : A)
| Raise (msg : string).
Arguments Ok {A} a.
Arguments Raise {A} msg.

Module Py.

Definition bind {A B} (m : res A) (k : A -> res B) : res B :=
  match m with Ok a => k a | Raise e => Raise e end.

Fixpoint mapM {A B} (f : A -> res B) (l : list A) : res (list B) :=
  match l with
  | [] => Ok []
  | x :: r =>
      bind (f x) (fun y => bind (mapM f r) (fun ys => Ok (y :: ys)))
  end.

(** The comprehension [[x for x in l if p(x)]] with a test that may
    raise. *)
Fixpoint filterM {A} (p : A -> res bool) (l : list A) : res (list A) :=
  match l with
  | [] => Ok []
  | x :: r =>
      bind (p x) (fun b =>
      bind (filterM p r) (fun ys => Ok (if b then x :: ys else ys)))
  end.

Definition type_name (v : json) : string :=
  match v with
  | JNull => "NoneType"
  | JBool _ => "bool"
  | JInt _ => "int"
  | JFloat _ => "float"
  | JStr _ => "str"
  | JList _ => "list"
  | JDict _ => "dict"
  end.

Fixpoint lookup (key : string) (d : list (string * json)) : option json :=
  match d with
  | [] => None
  | (k, v) :: r => if String.eqb k key then Some v else lookup key r
  end.

Definition is_str (key : string) (v : json) : bool :=
  match v with JStr s => String.eqb s key | _ => false end.

(** [key in x] for a string [key]. *)
Definition contains (key : string) (x : json) : res bool :=
  match x with
  | JDict d => Ok (match lookup key d with Some _ => true | None => false end)
  | JList l => Ok (existsb (is_str key) l)
  | JStr s => Ok (PyStr.is_infix key s)
  | _ => Raise ("argument of type '" ++ type_name x ++ "' is not iterable")
  end.

(** [x.get(key, default)] *)
Definition get (x : json) (key : string) (default : json) : res json :=
  match x with
  | JDict d => Ok (match lookup key d with Some v => v | None => default end)
  | _ => Raise ("'" ++ type_name x ++ "' object has no attribute 'get'")
  end.

(** [x[key]] for a string [key]. *)
Definition getitem (x : json) (key : string) : res json :=
  match x with
  | JDict d =>
      match lookup key d with
      | Some v => Ok v
      | None => Raise ("'" ++ key ++ "'")
      end
  | JList _ => Raise "list indices must be integers or slices, not str"
  | JStr _ => Raise "string indices must be integers, not 'str'"
  | _ => Raise ("'" ++ type_name x ++ "' object is not subscriptable")
  end.

(** [len(x)] *)
Definition len (x : json) : res Z :=
  match x with
  | JList l => Ok (Z.of_nat (List.length l))
  | JStr s => Ok (Z.of_nat (String.length s))
  | JDict d => Ok (Z.of_nat (List.length d))
  | _ => Raise ("object of type '" ++ type_name x ++ "' has no len()")
  end.

(** The items [for r in x] goes through. *)
Definition iter (x : json) : res (list json) :=
  match x with
  | JList l => Ok l
  | JStr s => Ok (map JStr (PyStr.chars s))
  | JDict d => Ok (map (fun kv => JStr (fst kv)) d)
  | _ => Raise ("'" ++ type_name x ++ "' object is not iterable")
  end.

(** [x[:n]] *)
Definition slice (x : json) (n : nat) : res json :=
  match x with
  | JList l => Ok (JList (firstn n l))
  | JStr s => Ok (JStr (PyStr.take n s))
  | JDict _ => Raise "unhashable type: 'slice'"
  | _ => Raise ("'" ++ type_name x ++ "' object is not subscriptable")
  end.

(** [x.lower()] *)
Definition lower (x : json) : res string :=
  match x with
  | JStr s => Ok (PyStr.lower s)
  | _ => Raise ("'" ++ type_name x ++ "' object has no attribute 'lower'")
  end.

Definition Qlt_bool (a b : Q) : bool := negb (Qle_bool b a).

Definition no_order (op : string) (x : json) : string :=
  "'" ++ op ++ "' not supported between instances of '"
      ++ type_name x ++ "' and 'int'".

(** [x >= k], [x > k] and [x < k] for an integer constant [k]; a [bool]
    is an [int] in Python. *)
Definition ge (x : json) (k : Z) : res bool :=
  match x with
  | JInt n => Ok (k <=? n)%Z
  | JBool b => Ok (k <=? Z.b2z b)%Z
  | JFloat q => Ok (Qle_bool (inject_Z k) q)
  | _ => Raise (no_order ">=" x)
  end.

Definition gt (x : json) (k : Z) : res bool :=
  match x with
  | JInt n => Ok (k <? n)%Z
  | JBool b => Ok (k <? Z.b2z b)%Z
  | JFloat q => Ok (Qlt_bool (inject_Z k) q)
  | _ => Raise (no_order ">" x)
  end.

Definition lt (x : json) (k : Z) : res bool :=
  match x with
  | JInt n => Ok (n <? k)%Z
  | JBool b => Ok (Z.b2z b <? k)%Z
  | JFloat q => Ok (Qlt_bool q (inject_Z k))
  | _ => Raise (no_order "<" x)
  end.

End Py.

Declare Scope res_scope.
Notation "'let*' x ':=' m 'in' k" := (Py.bind m (fun x => k))
  (at level 10, x name, m at level 100, k at level 200) : res_scope.
Open Scope res_scope.

(** ** The inference service and the call log *)

(** A request is identified by its stage and by the pieces the stage
    interpolates into its fixed prompt text. *)
Inductive request : Type :=
| DetectClauses (contract_text : string)
| AnalyzeRisks (clause_context excerpt : string)
| AssessClarity (excerpt : string)
| GenerateRedlines (risk_context clause_context excerpt : string).

(** What [json.loads(client.chat.completions.create(...).content)] does:
    it raises (the call failed or the content is not JSON), or it yields
    the parsed value. *)
Inductive response : Type :=
| Raised (msg : string)
| Content (j : json).

(** A computation that may raise and that logs the requests it sends. *)
Definition M (A : Type) : Type := list request -> res A * list request.

Definition ret {A} (a : A) : M A := fun log => (Ok a, log).

Definition lift {A} (r : res A) : M A := fun log => (r, log).

Definition mbind {A B} (m : M A) (k : A -> M B) : M B :=
  fun log =>
    match m log with
    | (Ok a, log') => k a log'
    | (Raise e, log') => (Raise e, log')
    end.

(** [try: m  except Exception as e: h(str(e))] *)
Definition try_except {A} (m : M A) (h : string -> M A) : M A :=
  fun log =>
    match m log with
    | (Ok a, log') => (Ok a, log')
    | (Raise e, log') => h e log'
    end.

Declare Scope m_scope.
Delimit Scope m_scope with M.
Notation "x <- m ;; k" := (mbind m (fun x => k))
  (at level 61, m at next level, right associativity) : m_scope.

Definition nl : string := String (ascii_of_nat 10) EmptyString.

Definition failure (msg : json) : json :=
  JDict [("error", msg); ("success", JBool false)].

Section Pipeline.

(** The inference client, and [repr] for the values whose rendering in an
    f-string is left to the runtime (floats, lists and dicts). *)
Variable client : request -> response.
Variable py_repr : json -> string.

(** [f"{v}"] *)
Definition py_str (v : json) : string :=
  match v with
  | JNull => "None"
  | JBool true => "True"
  | JBool false => "False"
  | JInt n => PyStr.of_int n
  | JStr s => s
  | _ => py_repr v
  end.

Definition create (rq : request) : M json :=
  fun log =>
    (match client rq with Raised e => Raise e | Content j => Ok j end,
     (log ++ [rq])%list).

(** *** [agents/clause_detector_agent.py] *)

Definition detect_clauses (contract_text : string) : M json :=
  try_except
    (create (DetectClauses contract_text))
    (fun e => ret (JDict
       [("error", JStr ("Failed to detect clauses: " ++ e));
        ("detected_clauses", JList []);
        ("clause_summary", JDict
           [("total_clauses_found", JInt 0);
            ("high_importance_count", JInt 0);
            ("coverage_assessment", JStr "Analysis failed due to error")])])).

(** One line of [clause_context]:
    [f"- {clause.get('clause_type', 'Unknown')}: {clause.get('clause_text', '')[:n]}..."] *)
Definition clause_line (n : nat) (clause : json) : res string :=
  let* ty := Py.get clause "clause_type" (JStr "Unknown") in
  let* tx := Py.get clause "clause_text" (JStr "") in
  let* cut := Py.slice tx n in
  Ok ("- " ++ py_str ty ++ ": " ++ py_str cut ++ "...").

(** ["\n".join([... for clause in detected_clauses[:limit]])] *)
Definition clause_context (limit n : nat) (detected_clauses : json)
  : res string :=
  let* first := Py.slice detected_clauses limit in
  let* clauses := Py.iter first in
  let* lines := Py.mapM (clause_line n) clauses in
  Ok (PyStr.join nl lines).

(** *** [agents/risk_analysis_agent.py] *)

Definition analyze_risks (contract_text : string) (detected_clauses : json)
  : M json :=
  try_except
    (ctx <- lift (clause_context 10 200 detected_clauses) ;;
     create (AnalyzeRisks ctx (PyStr.take 3000 contract_text)))%M
    (fun e => ret (JDict
       [("error", JStr ("Failed to analyze risks: " ++ e));
        ("risk_analysis", JList []);
        ("overall_risk_assessment", JDict
           [("total_risks_identified", JInt 0);
            ("high_severity_count", JInt 0);
            ("medium_severity_count", JInt 0);
            ("low_severity_count", JInt 0);
            ("overall_risk_score", JInt 0);
            ("key_concerns", JList [JStr "Risk analysis failed due to error"]);
            ("recommended_action",
             JStr "Manual review required - automated analysis unavailable")])])).

Definition assess_language_clarity (contract_text : string) : M json :=
  try_except
    (create (AssessClarity (PyStr.take 2000 contract_text)))
    (fun e => ret (JDict
       [("error", JStr ("Failed to assess language clarity: " ++ e));
        ("clarity_issues", JList []);
        ("clarity_score", JInt 0);
        ("summary", JStr "Language clarity analysis failed")])).

(** *** [agents/redline_suggester_agent.py] *)

(** [r.get(field, "").lower() == level] *)
Definition field_is (field level : string) (r : json) : res bool :=
  let* v := Py.get r field (JStr "") in
  let* lo := Py.lower v in
  Ok (String.eqb lo level).

Definition risk_line (risk : json) : res string :=
  let* ty := Py.get risk "risk_type" (JStr "Unknown Risk") in
  let* ds := Py.get risk "risk_description" (JStr "") in
  Ok ("- " ++ py_str ty ++ ": " ++ py_str ds).

Definition risk_context (risk_analysis : json) : res string :=
  let* all := Py.get risk_analysis "risk_analysis" (JList []) in
  let* risks := Py.iter all in
  let* high_risks := Py.filterM (field_is "severity_level" "high") risks in
  let* lines := Py.mapM risk_line (firstn 5 high_risks) in
  Ok (PyStr.join nl lines).

Definition generate_redlines (contract_text : string)
  (risk_analysis detected_clauses : json) : M json :=
  try_except
    (rctx <- lift (risk_context risk_analysis) ;;
     cctx <- lift (clause_context 8 150 detected_clauses) ;;
     create (GenerateRedlines rctx cctx (PyStr.take 3000 contract_text)))%M
    (fun e => ret (JDict
       [("error", JStr ("Failed to generate redlines: " ++ e));
        ("redline_suggestions", JList []);
        ("new_clauses_needed", JList []);
        ("negotiation_strategy", JDict
           [("key_positions",
             JList [JStr "Manual review required due to analysis error"]);
            ("fallback_options", JList []);
            ("deal_breakers", JList [])]);
        ("summary", JDict
           [("total_suggestions", JInt 0);
            ("critical_changes", JInt 0);
            ("estimated_risk_reduction",
             JStr "Unable to assess - analysis failed")])])).

(** [[r for r in redline_suggestions if r.get("priority", "").lower() == level]] *)
Definition with_priority (level : string) (redline_suggestions : json)
  : res (list json) :=
  let* items := Py.iter redline_suggestions in
  Py.filterM (field_is "priority" level) items.

Definition phase (changes : list json) (timeline approach : string) : json :=
  JDict [("changes", JList changes);
         ("timeline", JStr timeline);
         ("negotiation_approach", JStr approach)].

Definition count (l : list json) : json := JInt (Z.of_nat (List.length l)).

Definition prioritize_changes (redline_suggestions : json) : json :=
  match
    (let* critical_changes := with_priority "critical" redline_suggestions in
     let* high_changes := with_priority "high" redline_suggestions in
     let* medium_changes := with_priority "medium" redline_suggestions in
     let* total := Py.len redline_suggestions in
     Ok (JDict
       [("implementation_phases", JDict
           [("phase_1_critical",
             phase critical_changes
               "Address before any signing" "Non-negotiable positions");
            ("phase_2_high",
             phase high_changes
               "Primary negotiation focus"
               "Strong preference, willing to trade");
            ("phase_3_medium",
             phase medium_changes
               "Secondary negotiation items" "Nice to have improvements")]);
        ("negotiation_roadmap", JDict
           [("must_have_count", count critical_changes);
            ("high_priority_count", count high_changes);
            ("total_items", JInt total)])]))
  with
  | Ok v => v
  | Raise e =>
      JDict [("error", JStr ("Failed to prioritize changes: " ++ e));
             ("implementation_phases", JDict []);
             ("negotiation_roadmap", JDict [])]
  end.

(** *** [crew/crew.py] *)

Definition _determine_overall_risk_level (risk_summary : json) : res string :=
  let* high_risks := Py.get risk_summary "high_severity_count" (JInt 0) in
  let* total_risks := Py.get risk_summary "total_risks_identified" (JInt 0) in
  let* c1 := Py.ge high_risks 3 in
  if c1 then Ok "HIGH"
  else
    let* c2 := Py.ge high_risks 1 in
    let* c3 := (if c2 then Ok true else Py.ge total_risks 5) in
    if c3 then Ok "MEDIUM"
    else
      let* c4 := Py.ge total_risks 1 in
      if c4 then Ok "LOW" else Ok "MINIMAL".

Definition _assess_contract_quality (clause_summary risk_summary : json)
  : res string :=
  let* cov := Py.get clause_summary "coverage_assessment" (JStr "") in
  let* coverage := Py.lower cov in
  let* risk_score := Py.get risk_summary "overall_risk_score" (JInt 0) in
  let* good :=
    (if PyStr.is_infix "comprehensive" coverage
     then Py.lt risk_score 3 else Ok false) in
  if good then Ok "GOOD"
  else
    let* fair :=
      (if PyStr.is_infix "adequate" coverage
       then Py.lt risk_score 5 else Ok false) in
    if fair then Ok "FAIR" else Ok "NEEDS_IMPROVEMENT".

Definition _generate_executive_summary
  (clause_results risk_results redline_results : json) : json :=
  match
    (let* clause_summary := Py.get clause_results "clause_summary" (JDict []) in
     let* risk_summary :=
       Py.get risk_results "overall_risk_assessment" (JDict []) in
     let* redline_summary := Py.get redline_results "summary" (JDict []) in
     let* clauses_analyzed :=
       Py.get clause_summary "total_clauses_found" (JInt 0) in
     let* high_importance_clauses :=
       Py.get clause_summary "high_importance_count" (JInt 0) in
     let* risks_identified :=
       Py.get risk_summary "total_risks_identified" (JInt 0) in
     let* high_severity_risks :=
       Py.get risk_summary "high_severity_count" (JInt 0) in
     let* redline_suggestions :=
       Py.get redline_summary "total_suggestions" (JInt 0) in
     let* critical_changes_needed :=
       Py.get redline_summary "critical_changes" (JInt 0) in
     let* risk_level := _determine_overall_risk_level risk_summary in
     let* contract_quality :=
       _assess_contract_quality clause_summary risk_summary in
     let* recommended_action :=
       Py.get risk_summary "recommended_action" (JStr "Review recommended") in
     let* key_concerns := Py.get risk_summary "key_concerns" (JList []) in
     Ok (JDict
       [("contract_overview", JDict
           [("clauses_analyzed", clauses_analyzed);
            ("high_importance_clauses", high_importance_clauses);
            ("risks_identified", risks_identified);
            ("high_severity_risks", high_severity_risks);
            ("redline_suggestions", redline_suggestions);
            ("critical_changes_needed", critical_changes_needed)]);
        ("overall_assessment", JDict
           [("risk_level", JStr risk_level);
            ("contract_quality", JStr contract_quality);
            ("recommended_action", recommended_action);
            ("key_concerns", key_concerns)])]))
  with
  | Ok v => v
  | Raise e =>
      JDict [("error", JStr ("Failed to generate executive summary: " ++ e));
             ("contract_overview", JDict []);
             ("overall_assessment", JDict [])]
  end.

Definition boilerplate : list string :=
  ["Review all redline suggestions with legal counsel";
   "Negotiate key terms with counterparty";
   "Obtain final legal approval before signing"].

Definition _generate_next_steps (risk_results redline_results : json)
  : res (list string) :=
  let next_steps : list string := [] in
  let* risk_summary :=
    Py.get risk_results "overall_risk_assessment" (JDict []) in
  let* high_risks := Py.get risk_summary "high_severity_count" (JInt 0) in
  let* redline_summary := Py.get redline_results "summary" (JDict []) in
  let* critical_changes :=
    Py.get redline_summary "critical_changes" (JInt 0) in
  let* c := Py.gt critical_changes 0 in
  let next_steps :=
    if c
    then (next_steps
            ++ [("Address " ++ py_str critical_changes
                   ++ " critical redline suggestions before proceeding")%string])%list
    else next_steps in
  let* h := Py.gt high_risks 0 in
  let next_steps :=
    if h
    then (next_steps
            ++ [("Mitigate " ++ py_str high_risks
                   ++ " high-severity risks identified")%string])%list
    else next_steps in
  Ok (next_steps ++ boilerplate)%list.

(** [if "error" in results: print(results["error"]); results = default] *)
Definition or_default (results default : json) : res json :=
  let* failed := Py.contains "error" results in
  if failed
  then let* _ := Py.getitem results "error" in Ok default
  else Ok results.

Definition review_contract (contract_text : string) : M json :=
  if PyStr.is_empty contract_text || PyStr.is_empty (PyStr.strip contract_text)
  then ret (failure (JStr "No contract text provided for review"))
  else
    try_except
      (clause_results <- detect_clauses contract_text ;;
       failed <- lift (Py.contains "error" clause_results) ;;
       if failed : bool
       then
         error <- lift (Py.getitem clause_results "error") ;;
         ret (failure error)
       else
         detected_clauses <-
           lift (Py.get clause_results "detected_clauses" (JList [])) ;;
         _ <- lift (Py.len detected_clauses) ;;
         risk_results <- analyze_risks contract_text detected_clauses ;;
         risk_results <-
           lift (or_default risk_results
                   (JDict [("risk_analysis", JList []);
                           ("overall_risk_assessment", JDict [])])) ;;
         risks <- lift (Py.get risk_results "risk_analysis" (JList [])) ;;
         _ <- lift (Py.len risks) ;;
         clarity_results <- assess_language_clarity contract_text ;;
         redline_results <-
           generate_redlines contract_text risk_results detected_clauses ;;
         redline_results <-
           lift (or_default redline_results
                   (JDict [("redline_suggestions", JList []);
                           ("new_clauses_needed", JList [])])) ;;
         suggestions <-
           lift (Py.get redline_results "redline_suggestions" (JList [])) ;;
         _ <- lift (Py.len suggestions) ;;
         suggestions <-
           lift (Py.get redline_results "redline_suggestions" (JList [])) ;;
         let prioritization := prioritize_changes suggestions in
         let executive_summary :=
           _generate_executive_summary
             clause_results risk_results redline_results in
         next_steps <-
           lift (_generate_next_steps risk_results redline_results) ;;
         ret (JDict
           [("success", JBool true);
            ("contract_analysis", JDict
               [("clause_detection", clause_results);
                ("risk_analysis", risk_results);
                ("language_clarity", clarity_results);
                ("redline_suggestions", redline_results);
                ("change_prioritization", prioritization)]);
            ("executive_summary", executive_summary);
            ("next_steps", JList (map JStr next_steps))]))%M
      (fun e => ret (failure (JStr ("Contract review failed: " ++ e)))).

End Pipeline.

(** ** Vocabulary of the properties *)

(** The result of a computation started with an empty log, and the
    requests it sent. *)
Definition result {A} (m : M A) : res A := fst (m []).
Definition calls {A} (m : M A) : list request := snd (m []).

(** A computation is [tidy] when its result does not depend on the log it
    starts from and it only appends to that log. *)
Definition tidy {A} (m : M A) : Prop :=
  forall log, m log = (result m, (log ++ calls m)%list).

(** [blank s]: [s] is empty or made of whitespace only. *)
Definition blank (s : string) : Prop :=
  Forall (fun c => PyStr.isspace c = true) (list_ascii_of_string s).

(** [field k v]: the entry [k] of the JSON object [v], when there is one. *)
Definition field (k : string) (v : json) : option json :=
  match v with JDict d => Py.lookup k d | _ => None end.

(** [field_or k v default]: the entry [k] of [v], [default] when missing. *)
Definition field_or (k : string) (v default : json) : json :=
  match field k v with Some x => x | None => default end.

(** The stage slot [k] under [contract_analysis] of a report. *)
Definition slot (k : string) (report : json) : option json :=
  match field "contract_analysis" report with
  | Some a => field k a
  | None => None
  end.

Definition stage_slots : list string :=
  ["clause_detection"; "risk_analysis"; "language_clarity";
   "redline_suggestions"; "change_prioritization"].

(** A report with [success: true] and the five stage slots. *)
Definition success_report (v : json) : Prop :=
  field "success" v = Some (JBool true)
  /\ Forall (fun k => slot k v <> None) stage_slots.

(** A report with [success: false] and a populated error string. *)
Definition failure_report (v : json) : Prop :=
  field "success" v = Some (JBool false)
  /\ exists e, field "error" v = Some (JStr e) /\ e <> "".

(** The values [len] accepts, and the values an order comparison with an
    [int] accepts. *)
Definition sized (v : json) : bool :=
  match v with JList _ | JStr _ | JDict _ => true | _ => false end.

Definition numeric (v : json) : bool :=
  match v with JInt _ | JFloat _ | JBool _ => true | _ => false end.

(** The rational a number denotes. *)
Definition num_val (v : json) : option Q :=
  match v with
  | JInt n => Some (inject_Z n)
  | JBool b => Some (inject_Z (Z.b2z b))
  | JFloat q => Some q
  | _ => None
  end.

Definition is_dict (v : json) : bool :=
  match v with JDict _ => true | _ => false end.

Definition risk_default : json :=
  JDict [("risk_analysis", JList []); ("overall_risk_assessment", JDict [])].

Definition redline_default : json :=
  JDict [("redline_suggestions", JList []); ("new_clauses_needed", JList [])].

(** A stage result the orchestration goes through without raising: a JSON
    object that carries an error entry, or one whose inspected entries have
    the expected shape. *)
Definition risk_usable (v : json) : bool :=
  is_dict v
  && match field "error" v with
     | Some _ => true
     | None =>
         sized (field_or "risk_analysis" v (JList []))
         && is_dict (field_or "overall_risk_assessment" v (JDict []))
         && numeric (field_or "high_severity_count"
                       (field_or "overall_risk_assessment" v (JDict []))
                       (JInt 0))
     end.

Definition redline_usable (v : json) : bool :=
  is_dict v
  && match field "error" v with
     | Some _ => true
     | None =>
         sized (field_or "redline_suggestions" v (JList []))
         && is_dict (field_or "summary" v (JDict []))
         && numeric (field_or "critical_changes"
                       (field_or "summary" v (JDict [])) (JInt 0))
     end.

(** What [review_contract] keeps of a stage result that may carry an
    error. *)
Definition settled (v default : json) : json :=
  match field "error" v with Some _ => default | None => v end.

(** Equality of strings up to letter case, and containment of a word in a
    text up to letter case. *)
Definition ci_equal (a b : string) : Prop := PyStr.lower a = PyStr.lower b.

Definition contains_ci (word text : string) : Prop :=
  exists pre mid post, text = pre ++ mid ++ post /\ ci_equal mid word.

(** The priority of a suggestion record: its [priority] entry, the empty
    string when the entry is missing. *)
Definition suggestion (r : json) : Prop :=
  exists d, r = JDict d
    /\ (Py.lookup "priority" d = None
        \/ exists s, Py.lookup "priority" d = Some (JStr s)).

Definition priority (r : json) : string :=
  match field "priority" r with Some (JStr s) => s | _ => "" end.

Definition has_priority (level : string) (r : json) : bool :=
  String.eqb (PyStr.lower (priority r)) level.


(** The report that hands over the [error] entry of the clause-detection
    answer of the client. *)
Definition passed_through (client : request -> response) (text : string)
  (v : json) : Prop :=
  exists d e, client (DetectClauses text) = Content (JDict d)
    /\ Py.lookup "error" d = Some e
    /\ v = JDict [("error", e); ("success", JBool false)].

(** Reading an entry of a JSON object with a default: [int_entry k v n]
    when [v.get(k, 0)] is the integer [n], [num_entry k v q] when it is a
    number of value [q], [str_entry k v s] when [v.get(k, "")] is the
    string [s], [dict_entry k v w] when [v.get(k, {})] is the JSON object
    [w]. *)
Definition int_entry (k : string) (v : json) (n : Z) : Prop :=
  field k v = Some (JInt n) \/ (field k v = None /\ n = 0).

Definition num_entry (k : string) (v : json) (q : Q) : Prop :=
  (exists x, field k v = Some x /\ num_val x = Some q)
  \/ (field k v = None /\ q = inject_Z 0).

Definition str_entry (k : string) (v : json) (s : string) : Prop :=
  field k v = Some (JStr s) \/ (field k v = None /\ s = "").

Definition dict_entry (k : string) (v w : json) : Prop :=
  is_dict w = true /\ (field k v = Some w \/ (field k v = None /\ w = JDict [])).

(** The items of a phase of a prioritization plan. *)
Definition bucket (phase_name : string) (plan : json) : option json :=
  match field "implementation_phases" plan with
  | Some phases =>
      match field phase_name phases with
      | Some p => field "changes" p
      | None => None
      end
  | None => None
  end.

(** ** Sample inference clients *)

(** A client that answers every request with the empty JSON object, one
    that fails every request, and a rendering of floats and containers. *)
Definition silent_client (_ : request) : response := Content (JDict []).

Definition failing_client (_ : request) : response := Raised "timeout".

Definition no_repr (_ : json) : string := "".

(** A client whose clause-detection answer carries ["error": null]. *)
Definition null_error_client (rq : request) : response :=
  match rq with
  | DetectClauses _ =>
      Content (JDict [("detected_clauses", JList []); ("error", JNull)])
  | _ => Content (JDict [])
  end.

(** A client whose risk analysis fails and whose other answers are empty
    JSON objects. *)
Definition risk_down_client (rq : request) : response :=
  match rq with
  | AnalyzeRisks _ _ => Raised "timeout"
  | _ => Content (JDict [])
  end.

(** A client whose risk analysis fails and whose redline answer has a number
    where the list of suggestions is expected. *)
Definition odd_redline_client (rq : request) : response :=
  match rq with
  | AnalyzeRisks _ _ => Raised "timeout"
  | GenerateRedlines _ _ _ => Content (JDict [("redline_suggestions", JInt 5)])
  | _ => Content (JDict [])
  end.

(** A client whose clarity and redline calls fail. *)
Definition late_down_client (rq : request) : response :=
  match rq with
  | AssessClarity _ => Raised "timeout"
  | GenerateRedlines _ _ _ => Raised "timeout"
  | _ => Content (JDict [])
  end.

(** A client whose redline answer gives the number of critical changes as
    a string. *)
Definition string_count_client (rq : request) : response :=
  match rq with
  | GenerateRedlines _ _ _ =>
      Content (JDict [("redline_suggestions", JList []);
                      ("summary", JDict [("critical_changes", JStr "2")])])
  | _ => Content (JDict [])
  end.

(** A client whose clause-detection answer is a JSON array. *)
Definition array_client (rq : request) : response :=
  match rq with
  | DetectClauses _ => Content (JList [JStr "Termination"])
  | _ => Content (JDict [])
  end.

(** ** Further entry points *)

(** [any(p(x) for x in l)], which stops at the first item that passes. *)
Fixpoint anyM {A} (p : A -> res bool) (l : list A) : res bool :=
  match l with
  | [] => Ok false
  | x :: r => let* b := p x in if b : bool then Ok true else anyM p r
  end.

(** The integer an [int] or a [bool] denotes. *)
Definition int_val (v : json) : option Z :=
  match v with
  | JInt n => Some n
  | JBool b => Some (Z.b2z b)
  | _ => None
  end.

(** [a - b]: defined on numbers, a [TypeError] on anything else. *)
Definition py_sub (a b : json) : res json :=
  match int_val a, int_val b with
  | Some x, Some y => Ok (JInt (x - y))
  | _, _ =>
      match num_val a, num_val b with
      | Some x, Some y => Ok (JFloat (x - y)%Q)
      | _, _ =>
          Raise ("unsupported operand type(s) for -: '" ++ Py.type_name a
                   ++ "' and '" ++ Py.type_name b ++ "'")
      end
  end.

(** *** [agents/clause_detector_agent.py], [get_clause_recommendations] *)

Definition essential_clauses : list string :=
  ["Indemnity"; "Termination"; "Liability Limitation";
   "Governing Law"; "Dispute Resolution"].

(** [essential.lower() in clause_type.lower()] *)
Definition names (essential : string) (clause_type : json) : res bool :=
  let* found := Py.lower clause_type in
  Ok (PyStr.is_infix (PyStr.lower essential) found).

Definition get_clause_recommendations (detected_clauses : json) : res json :=
  let* clauses := Py.iter detected_clauses in
  let* clause_types_found :=
    Py.mapM (fun clause => Py.get clause "clause_type" (JStr "")) clauses in
  let* missing_clauses :=
    Py.filterM
      (fun essential =>
         let* covered := anyM (names essential) clause_types_found in
         Ok (negb covered))
      essential_clauses in
  let* rest :=
    py_sub (JList (map JStr essential_clauses))
           (JInt (Z.of_nat (List.length missing_clauses))) in
  let* covered := Py.len rest in
  Ok (JDict
    [("missing_essential_clauses", JList (map JStr missing_clauses));
     ("completeness_score",
      JFloat (inject_Z covered
              / inject_Z (Z.of_nat (List.length essential_clauses))
              * inject_Z 100)%Q);
     ("recommendations",
      JList (map (fun clause =>
                    JStr ("Consider adding a " ++ clause
                            ++ " clause for better protection"))
                 missing_clauses))]).

(** *** [app.py], [allowed_file] *)

Definition ALLOWED_EXTENSIONS : list string :=
  ["txt"; "pdf"; "docx"; "doc"; "png"; "jpg"; "jpeg"; "tiff"; "bmp"].

(** [s.rsplit(sep, 1)]: [s] cut at its last [sep], [[s]] when it has
    none. *)
Fixpoint cut_last (sep : ascii) (s : string) : option (string * string) :=
  match s with
  | EmptyString => None
  | String c r =>
      match cut_last sep r with
      | Some (a, b) => Some (String c a, b)
      | None => if Ascii.eqb c sep then Some (EmptyString, r) else None
      end
  end.

Definition rsplit1 (sep : ascii) (s : string) : list string :=
  match cut_last sep s with
  | Some (a, b) => [a; b]
  | None => [s]
  end.

(** [l[i]] *)
Definition item (l : list string) (i : nat) : res string :=
  match nth_error l i with
  | Some x => Ok x
  | None => Raise "list index out of range"
  end.

Definition allowed_file (filename : string) : res bool :=
  if PyStr.is_infix "." filename
  then
    let* extension := item (rsplit1 "."%char filename) 1 in
    Ok (existsb (String.eqb (PyStr.lower extension)) ALLOWED_EXTENSIONS)
  else Ok false.

(** Records the agents cannot read: an item that is no JSON object, or
    whose entry [k] is present and is no string. *)
Definition unreadable (k : string) (r : json) : Prop :=
  is_dict r = false
  \/ exists v, field k r = Some v /\ forall s, v <> JStr s.

(** Records the agents can read: a JSON object whose entry [k] is a string
    or is missing. *)
Definition readable (k : string) (r : json) : Prop :=
  exists d, r = JDict d
    /\ (Py.lookup k d = None \/ exists s, Py.lookup k d = Some (JStr s)).

(** The value of the entry [k] of a record, the empty string when it is
    missing, compared with [level] up to letter case. *)
Definition entry_is (k level : string) (r : json) : bool :=
  String.eqb
    (PyStr.lower (match field k r with Some (JStr s) => s | _ => "" end))
    level.

(** ** Orders on the derived grades and on the stages *)

Definition level_rank (level : string) : nat :=
  if String.eqb level "HIGH" then 3
  else if String.eqb level "MEDIUM" then 2
  else if String.eqb level "LOW" then 1
  else 0.

Definition quality_rank (quality : string) : nat :=
  if String.eqb quality "GOOD" then 2
  else if String.eqb quality "FAIR" then 1
  else 0.

Definition stage (rq : request) : nat :=
  match rq with
  | DetectClauses _ => 1
  | AnalyzeRisks _ _ => 2
  | AssessClarity _ => 3
  | GenerateRedlines _ _ _ => 4
  end.

(** [increasing l]: each number of [l] is below the next one. *)
Fixpoint increasing (l : list nat) : Prop :=
  match l with
  | [] => True
  | x :: r =>
      match r with
      | [] => True
      | y :: _ => (x < y)%nat /\ increasing r
      end
  end.

(** * Properties *)

(** ** Strings *)

Lemma lstrip_blank (s : string) : blank s -> PyStr.lstrip s = "".
Proof.
  unfold blank. induction s as [|c r IH]; simpl; intros H.
  - reflexivity.
  - inversion H as [|? ? Hc Hr]; subst. rewrite Hc. auto.
Qed.

Lemma strip_blank (s : string) : blank s -> PyStr.strip s = "".
Proof.
  intros H. unfold PyStr.strip. rewrite (lstrip_blank s H). reflexivity.
Qed.

Lemma lstrip_not_blank (s : string) :
  ~ blank s ->
  exists c r, PyStr.lstrip s = String c r /\ PyStr.isspace c = false.
Proof.
  unfold blank. induction s as [|c r IH]; simpl; intros H.
  - exfalso. apply H. constructor.
  - destruct (PyStr.isspace c) eqn:Hc.
    + apply IH. intros Hr. apply H. constructor; assumption.
    + exists c, r. split; [reflexivity | assumption].
Qed.

Lemma guard_blank (s : string) :
  blank s -> PyStr.is_empty s || PyStr.is_empty (PyStr.strip s) = true.
Proof.
  intros H. rewrite (strip_blank s H). apply orb_true_r.
Qed.

Lemma guard_not_blank (s : string) :
  ~ blank s -> PyStr.is_empty s || PyStr.is_empty (PyStr.strip s) = false.
Proof.
  intros H. destruct (lstrip_not_blank s H) as (c & r & Hl & Hc).
  unfold PyStr.strip. rewrite Hl. simpl. rewrite Hc. simpl.
  destruct s; [|reflexivity].
  exfalso. apply H. constructor.
Qed.

(** ** Empty input *)

(** C5. When the contract text is empty or whitespace-only, the review
    fails at once with [success: false] and the error string
    ["No contract text provided for review"], and the inference client is
    never called: the log of requests is empty. *)
Theorem blank_text_fails_without_call
  (client : request -> response) (py_repr : json -> string) (text : string) :
  blank text ->
  review_contract client py_repr text []
  = (Ok (JDict [("error", JStr "No contract text provided for review");
                ("success", JBool false)]),
     []).
Proof.
  intros H. unfold review_contract. rewrite (guard_blank text H).
  reflexivity.
Qed.

Lemma blank_text_fails_without_call_witness :
  blank "  " /\
  review_contract silent_client no_repr "  " []
  = (Ok (JDict [("error", JStr "No contract text provided for review");
                ("success", JBool false)]),
     []).
Proof.
  assert (H : blank "  ") by (repeat constructor).
  split; [exact H|].
  exact (blank_text_fails_without_call silent_client no_repr "  " H).
Defined.

(** ** The call log *)

Lemma tidy_ret {A} (a : A) : tidy (ret a).
Proof. intros log. unfold ret, result, calls. simpl. now rewrite app_nil_r. Qed.

Lemma tidy_lift {A} (r : res A) : tidy (lift r).
Proof. intros log. unfold lift, result, calls. simpl. now rewrite app_nil_r. Qed.

Lemma tidy_create client rq : tidy (create client rq).
Proof. intros log. reflexivity. Qed.

Lemma tidy_mbind {A B} (m : M A) (k : A -> M B) :
  tidy m -> (forall a, tidy (k a)) -> tidy (mbind m k).
Proof.
  intros Hm Hk log. unfold result, calls, mbind.
  rewrite (Hm log), (Hm []). simpl.
  destruct (result m) as [a|e]; simpl.
  - rewrite (Hk a (log ++ calls m)%list), (Hk a (calls m)). simpl.
    now rewrite app_assoc.
  - reflexivity.
Qed.

Lemma tidy_try_except {A} (m : M A) (h : string -> M A) :
  tidy m -> (forall e, tidy (h e)) -> tidy (try_except m h).
Proof.
  intros Hm Hh log. unfold result, calls, try_except.
  rewrite (Hm log), (Hm []). simpl.
  destruct (result m) as [a|e]; simpl.
  - reflexivity.
  - rewrite (Hh e (log ++ calls m)%list), (Hh e (calls m)). simpl.
    now rewrite app_assoc.
Qed.

Ltac tidy_tac :=
  repeat first
    [ apply tidy_ret | apply tidy_lift | apply tidy_create
    | apply tidy_try_except; [|intros ?]
    | apply tidy_mbind; [|intros ?] ].

Lemma tidy_detect client text : tidy (detect_clauses client text).
Proof. unfold detect_clauses. tidy_tac. Qed.

Lemma tidy_risks client py_repr text dc :
  tidy (analyze_risks client py_repr text dc).
Proof. unfold analyze_risks. tidy_tac. Qed.

Lemma tidy_clarity client text : tidy (assess_language_clarity client text).
Proof. unfold assess_language_clarity. tidy_tac. Qed.

Lemma tidy_redlines client py_repr text r dc :
  tidy (generate_redlines client py_repr text r dc).
Proof. unfold generate_redlines. tidy_tac. Qed.

(** The stages catch every exception: they return a value. *)
Lemma try_except_total {A} (m : M A) (h : string -> M A) :
  (forall e log, exists a, h e log = (Ok a, log)) ->
  exists a, result (try_except m h) = Ok a.
Proof.
  intros Hh. unfold result, try_except.
  destruct (m []) as [[a|e] log].
  - now exists a.
  - destruct (Hh e log) as [a Ha]. exists a. now rewrite Ha.
Qed.

Lemma detect_total client text :
  exists v, result (detect_clauses client text) = Ok v.
Proof. apply try_except_total. intros e log. eexists. reflexivity. Qed.

Lemma risks_total client py_repr text dc :
  exists v, result (analyze_risks client py_repr text dc) = Ok v.
Proof. apply try_except_total. intros e log. eexists. reflexivity. Qed.

Lemma clarity_total client text :
  exists v, result (assess_language_clarity client text) = Ok v.
Proof. apply try_except_total. intros e log. eexists. reflexivity. Qed.

Lemma redlines_total client py_repr text r dc :
  exists v, result (generate_redlines client py_repr text r dc) = Ok v.
Proof. apply try_except_total. intros e log. eexists. reflexivity. Qed.

(** The only request of the first stage is the clause-detection one. *)
Lemma detect_calls client text :
  calls (detect_clauses client text) = [DetectClauses text].
Proof.
  unfold calls, detect_clauses, try_except, create.
  destruct (client (DetectClauses text)); reflexivity.
Qed.

(** ** Failure of the first stage *)

(** C2. When the first stage fails, that is when the result of
    [detect_clauses] is a JSON object with an [error] entry, the review
    returns [{error: <that entry>, success: false}] and sends no request of
    a later stage: the log holds the clause-detection request alone. *)
Theorem stage1_failure_short_circuits
  (client : request -> response) (py_repr : json -> string) (text : string)
  (d : list (string * json)) (e : json) :
  ~ blank text ->
  result (detect_clauses client text) = Ok (JDict d) ->
  Py.lookup "error" d = Some e ->
  review_contract client py_repr text []
  = (Ok (JDict [("error", e); ("success", JBool false)]),
     [DetectClauses text]).
Proof.
  intros Hb Hd He. unfold review_contract.
  rewrite (guard_not_blank text Hb).
  unfold try_except, mbind.
  rewrite (tidy_detect client text []), Hd, detect_calls. simpl.
  unfold lift. simpl. rewrite He. reflexivity.
Qed.

Lemma stage1_failure_short_circuits_witness :
  review_contract failing_client no_repr "Lease" []
  = (Ok (JDict [("error", JStr "Failed to detect clauses: timeout");
                ("success", JBool false)]),
     [DetectClauses "Lease"]).
Proof.
  apply (stage1_failure_short_circuits failing_client no_repr "Lease"
           [("error", JStr "Failed to detect clauses: timeout");
            ("detected_clauses", JList []);
            ("clause_summary", JDict
               [("total_clauses_found", JInt 0);
                ("high_importance_count", JInt 0);
                ("coverage_assessment", JStr "Analysis failed due to error")])]).
  - intros H. inversion H as [|? ? Hc ?]. discriminate Hc.
  - reflexivity.
  - reflexivity.
Defined.

(** ** Inversion of successful computations *)

Lemma mbind_ok {A B} (m : M A) (k : A -> M B) log v l :
  mbind m k log = (Ok v, l) ->
  exists a l1, m log = (Ok a, l1) /\ k a l1 = (Ok v, l).
Proof.
  unfold mbind. destruct (m log) as [[a|e] l1]; intros H.
  - now exists a, l1.
  - discriminate.
Qed.

Lemma lift_ok {A} (r : res A) log a l :
  lift r log = (Ok a, l) -> r = Ok a.
Proof. unfold lift. now intros [= -> _]. Qed.

Lemma ret_ok {A} (a : A) log v l : ret a log = (Ok v, l) -> v = a.
Proof. unfold ret. now intros [= ->]. Qed.

Lemma getitem_ok v k e :
  Py.getitem v k = Ok e -> exists d, v = JDict d /\ Py.lookup k d = Some e.
Proof.
  destruct v; simpl; try discriminate.
  destruct (Py.lookup k d) eqn:E; [|discriminate].
  intros [= ->]. now exists d.
Qed.

Ltac minv H :=
  repeat
    match type of H with
    | mbind _ _ _ = (Ok _, _) =>
        let a := fresh "a" in let l := fresh "l" in
        let H1 := fresh "S" in
        apply mbind_ok in H; destruct H as (a & l & H1 & H);
        try apply lift_ok in H1
    end.

(** ** The shape of every report *)

(** C1, as the code has it. For a contract text that is not blank the
    review never raises and returns a report of one of three shapes:
    [success: true] with the five stage slots under [contract_analysis];
    [success: false] with a non-empty error string; or, when the
    clause-detection answer of the client is itself a JSON object with an
    [error] entry, [success: false] with that entry handed over as it is,
    whatever its JSON type. *)
Theorem review_contract_report_shape
  (client : request -> response) (py_repr : json -> string) (text : string) :
  ~ blank text ->
  exists v, result (review_contract client py_repr text) = Ok v
    /\ (success_report v \/ failure_report v \/ passed_through client text v).
Proof.
  intros Hb. unfold result, review_contract.
  rewrite (guard_not_blank text Hb).
  unfold try_except at 1.
  match goal with
  | |- context [match ?m [] with _ => _ end] =>
      destruct (m []) as [[v|e] l] eqn:E
  end.
  2:{ eexists. split; [reflexivity|]. right. left.
      split; [reflexivity|]. eexists. split; [reflexivity|]. discriminate. }
  exists v. split; [reflexivity|].
  minv E.
  match type of E with (if ?b then _ else _) _ = _ => destruct b end.
  - minv E. apply ret_ok in E. subst v.
    match goal with
    | H : Py.getitem _ _ = Ok _ |- _ =>
        apply getitem_ok in H; destruct H as (d & -> & Hl)
    end.
    match goal with
    | H : detect_clauses _ _ _ = _ |- _ =>
        revert H; unfold detect_clauses, try_except, create
    end.
    destruct (client (DetectClauses text)) eqn:Hc.
    + unfold ret. intros [= <- _]. simpl in Hl. injection Hl as <-.
      right. left. split; [reflexivity|].
      eexists. split; [reflexivity|]. discriminate.
    + intros [= -> _]. right. right. exists d. eexists. repeat split; eauto.
  - minv E. cbv zeta in E. minv E. apply ret_ok in E. subst v.
    left. split; [reflexivity|]. repeat constructor; discriminate.
Qed.

Lemma not_blank_lease : ~ blank "Lease".
Proof. intros H. inversion H as [|? ? Hc ?]. discriminate Hc. Qed.

Lemma review_contract_report_shape_witness :
  exists v, result (review_contract silent_client no_repr "Lease") = Ok v
    /\ (success_report v \/ failure_report v
        \/ passed_through silent_client "Lease" v).
Proof.
  exact (review_contract_report_shape silent_client no_repr "Lease"
           not_blank_lease).
Defined.

(** C1, counterexample. The clause-detection answer
    [{"detected_clauses": [], "error": null}] makes the review return
    [{error: None, success: False}]: neither the success payload nor a
    populated error string. *)
Lemma null_error_is_handed_over :
  ~ blank "Lease"
  /\ result (review_contract null_error_client no_repr "Lease")
     = Ok (JDict [("error", JNull); ("success", JBool false)])
  /\ ~ success_report (JDict [("error", JNull); ("success", JBool false)])
  /\ ~ failure_report (JDict [("error", JNull); ("success", JBool false)]).
Proof.
  split; [exact not_blank_lease|].
  split; [reflexivity|].
  split.
  - intros [H _]. discriminate H.
  - intros [_ (e & H & _)]. discriminate H.
Qed.

(** ** Runs that complete *)

Lemma get_dict v k dflt :
  is_dict v = true -> Py.get v k dflt = Ok (field_or k v dflt).
Proof. destruct v; try discriminate. reflexivity. Qed.

Lemma contains_dict v k :
  is_dict v = true ->
  Py.contains k v
  = Ok (match field k v with Some _ => true | None => false end).
Proof. destruct v; try discriminate. reflexivity. Qed.

Lemma len_sized v : sized v = true -> exists n, Py.len v = Ok n.
Proof. destruct v; try discriminate; intros _; eexists; reflexivity. Qed.

Lemma gt_numeric v k : numeric v = true -> exists b, Py.gt v k = Ok b.
Proof. destruct v; try discriminate; intros _; eexists; reflexivity. Qed.

Lemma or_default_dict v dflt :
  is_dict v = true -> or_default v dflt = Ok (settled v dflt).
Proof.
  destruct v; try discriminate. intros _.
  unfold or_default, settled. simpl.
  destruct (Py.lookup "error" d); reflexivity.
Qed.

Lemma risk_settled r :
  risk_usable r = true ->
  let r' := settled r risk_default in
  is_dict r' = true
  /\ sized (field_or "risk_analysis" r' (JList [])) = true
  /\ is_dict (field_or "overall_risk_assessment" r' (JDict [])) = true
  /\ numeric (field_or "high_severity_count"
                (field_or "overall_risk_assessment" r' (JDict [])) (JInt 0))
     = true.
Proof.
  unfold risk_usable, settled. intros H.
  apply andb_true_iff in H. destruct H as [Hd H].
  destruct (field "error" r).
  - repeat split; reflexivity.
  - apply andb_true_iff in H. destruct H as [H H3].
    apply andb_true_iff in H. destruct H as [H1 H2]. auto.
Qed.

Lemma redline_settled r :
  redline_usable r = true ->
  let r' := settled r redline_default in
  is_dict r' = true
  /\ sized (field_or "redline_suggestions" r' (JList [])) = true
  /\ is_dict (field_or "summary" r' (JDict [])) = true
  /\ numeric (field_or "critical_changes"
                (field_or "summary" r' (JDict [])) (JInt 0))
     = true.
Proof.
  unfold redline_usable, settled. intros H.
  apply andb_true_iff in H. destruct H as [Hd H].
  destruct (field "error" r).
  - repeat split; reflexivity.
  - apply andb_true_iff in H. destruct H as [H H3].
    apply andb_true_iff in H. destruct H as [H1 H2]. auto.
Qed.

Lemma next_steps_total py_repr risk redline :
  is_dict risk = true ->
  is_dict (field_or "overall_risk_assessment" risk (JDict [])) = true ->
  numeric (field_or "high_severity_count"
             (field_or "overall_risk_assessment" risk (JDict [])) (JInt 0))
  = true ->
  is_dict redline = true ->
  is_dict (field_or "summary" redline (JDict [])) = true ->
  numeric (field_or "critical_changes"
             (field_or "summary" redline (JDict [])) (JInt 0)) = true ->
  exists steps, _generate_next_steps py_repr risk redline = Ok steps.
Proof.
  intros H1 H2 H3 H4 H5 H6. unfold _generate_next_steps.
  rewrite (get_dict _ _ _ H1). simpl.
  rewrite (get_dict _ _ _ H2). simpl.
  rewrite (get_dict _ _ _ H4). simpl.
  rewrite (get_dict _ _ _ H5). simpl.
  destruct (gt_numeric _ 0 H6) as [b ->]. simpl.
  destruct (gt_numeric _ 0 H3) as [b' ->]. simpl.
  eexists. reflexivity.
Qed.

Lemma run_tidy {A} (m : M A) log : tidy m -> m log = (result m, (log ++ calls m)%list).
Proof. intros H. apply H. Qed.

Lemma review_contract_completes client py_repr text c r2 r3 r4 :
  ~ blank text ->
  result (detect_clauses client text) = Ok c ->
  is_dict c = true ->
  field "error" c = None ->
  sized (field_or "detected_clauses" c (JList [])) = true ->
  result (analyze_risks client py_repr text
            (field_or "detected_clauses" c (JList []))) = Ok r2 ->
  risk_usable r2 = true ->
  result (assess_language_clarity client text) = Ok r3 ->
  result (generate_redlines client py_repr text (settled r2 risk_default)
            (field_or "detected_clauses" c (JList []))) = Ok r4 ->
  redline_usable r4 = true ->
  exists summary steps,
    result (review_contract client py_repr text)
    = Ok (JDict
        [("success", JBool true);
         ("contract_analysis", JDict
            [("clause_detection", c);
             ("risk_analysis", settled r2 risk_default);
             ("language_clarity", r3);
             ("redline_suggestions", settled r4 redline_default);
             ("change_prioritization",
              prioritize_changes
                (field_or "redline_suggestions"
                   (settled r4 redline_default) (JList [])))]);
         ("executive_summary", summary);
         ("next_steps", JList (map JStr steps))]).
Proof.
  intros Hb Hc Hcd Hce Hdc Hr2 Hu2 Hr3 Hr4 Hu4.
  destruct (risk_settled r2 Hu2) as (Ra & Rb & Rc & Rd).
  destruct (redline_settled r4 Hu4) as (La & Lb & Lc & Ld).
  destruct (next_steps_total py_repr _ _ Ra Rc Rd La Lc Ld) as [steps Hs].
  assert (Hd2 : is_dict r2 = true).
  { unfold risk_usable in Hu2. now apply andb_true_iff in Hu2. }
  assert (Hd4 : is_dict r4 = true).
  { unfold redline_usable in Hu4. now apply andb_true_iff in Hu4. }
  destruct (len_sized _ Hdc) as [n1 Hn1].
  destruct (len_sized _ Rb) as [n2 Hn2].
  destruct (len_sized _ Lb) as [n3 Hn3].
  eexists. exists steps.
  unfold result, review_contract.
  rewrite (guard_not_blank text Hb).
  unfold try_except at 1. unfold mbind, lift.
  rewrite (run_tidy _ _ (tidy_detect client text)), Hc.
  rewrite (contains_dict _ _ Hcd), Hce.
  rewrite (get_dict _ _ _ Hcd), Hn1.
  rewrite (run_tidy _ _ (tidy_risks client py_repr text _)), Hr2.
  fold risk_default. rewrite (or_default_dict _ _ Hd2).
  rewrite (get_dict _ _ _ Ra), Hn2.
  rewrite (run_tidy _ _ (tidy_clarity client text)), Hr3.
  rewrite (run_tidy _ _ (tidy_redlines client py_repr text _ _)), Hr4.
  fold redline_default. rewrite (or_default_dict _ _ Hd4).
  rewrite (get_dict _ _ _ La), Hn3, Hs.
  unfold ret. reflexivity.
Qed.

Lemma risks_usable client py_repr text dc r :
  (forall a b j, client (AnalyzeRisks a b) = Content j -> risk_usable j = true) ->
  result (analyze_risks client py_repr text dc) = Ok r ->
  risk_usable r = true.
Proof.
  intros H. unfold result, analyze_risks, try_except, mbind, lift, create, ret.
  destruct (clause_context py_repr 10 200 dc) as [ctx|e]; simpl.
  - destruct (client (AnalyzeRisks ctx (PyStr.take 3000 text))) eqn:E; simpl.
    + intros [= <-]. reflexivity.
    + intros [= <-]. eapply H, E.
  - intros [= <-]. reflexivity.
Qed.

Lemma redlines_usable client py_repr text risk dc r :
  (forall a b x j,
      client (GenerateRedlines a b x) = Content j -> redline_usable j = true) ->
  result (generate_redlines client py_repr text risk dc) = Ok r ->
  redline_usable r = true.
Proof.
  intros H.
  unfold result, generate_redlines, try_except, mbind, lift, create, ret.
  destruct (risk_context py_repr risk) as [rctx|e]; simpl.
  - destruct (clause_context py_repr 8 150 dc) as [cctx|e]; simpl.
    + destruct (client (GenerateRedlines rctx cctx (PyStr.take 3000 text)))
        eqn:E; simpl.
      * intros [= <-]. reflexivity.
      * intros [= <-]. eapply H, E.
    + intros [= <-]. reflexivity.
  - intros [= <-]. reflexivity.
Qed.

Lemma clarity_failure client text e :
  client (AssessClarity (PyStr.take 2000 text)) = Raised e ->
  result (assess_language_clarity client text)
  = Ok (JDict
      [("error", JStr ("Failed to assess language clarity: " ++ e));
       ("clarity_issues", JList []);
       ("clarity_score", JInt 0);
       ("summary", JStr "Language clarity analysis failed")]).
Proof.
  intros H. unfold result, assess_language_clarity, try_except, create.
  rewrite H. reflexivity.
Qed.

Lemma settled_failed v dflt :
  field "error" v <> None -> settled v dflt = dflt.
Proof. unfold settled. destruct (field "error" v); congruence. Qed.

Lemma failed_risk_usable r :
  is_dict r = true -> field "error" r <> None -> risk_usable r = true.
Proof.
  intros Hd He. unfold risk_usable. rewrite Hd.
  destruct (field "error" r); [reflexivity | congruence].
Qed.

(** ** Failure of the risk analysis *)

(** C3, as the code has it. When clause detection succeeded (its result is
    a JSON object without [error] entry, whose [detected_clauses] has a
    length, so that the second stage is reached), the risk analysis fails
    (its result is a JSON object with an [error] entry), and every answer
    the client gives to the redline request is usable, the review returns
    [success: true] and its [risk_analysis] slot is exactly
    [{risk_analysis: [], overall_risk_assessment: {}}]. *)
Theorem risk_failure_is_absorbed
  (client : request -> response) (py_repr : json -> string) (text : string)
  (c r2 : json) :
  ~ blank text ->
  result (detect_clauses client text) = Ok c ->
  is_dict c = true ->
  field "error" c = None ->
  sized (field_or "detected_clauses" c (JList [])) = true ->
  result (analyze_risks client py_repr text
            (field_or "detected_clauses" c (JList []))) = Ok r2 ->
  is_dict r2 = true ->
  field "error" r2 <> None ->
  (forall a b x j,
      client (GenerateRedlines a b x) = Content j -> redline_usable j = true) ->
  exists v,
    result (review_contract client py_repr text) = Ok v
    /\ field "success" v = Some (JBool true)
    /\ slot "risk_analysis" v
       = Some (JDict [("risk_analysis", JList []);
                      ("overall_risk_assessment", JDict [])]).
Proof.
  intros Hb Hc Hcd Hce Hdc Hr2 Hd2 He2 Hred.
  destruct (clarity_total client text) as [r3 Hr3].
  destruct (redlines_total client py_repr text (settled r2 risk_default)
              (field_or "detected_clauses" c (JList []))) as [r4 Hr4].
  destruct (review_contract_completes client py_repr text c r2 r3 r4)
    as (summary & steps & Hrun); try assumption.
  - now apply failed_risk_usable.
  - eapply redlines_usable; eassumption.
  - eexists. split; [exact Hrun|]. split; [reflexivity|].
    unfold slot. simpl. rewrite (settled_failed r2 _ He2). reflexivity.
Qed.

Lemma risk_failure_is_absorbed_witness :
  exists v,
    result (review_contract risk_down_client no_repr "Lease") = Ok v
    /\ field "success" v = Some (JBool true)
    /\ slot "risk_analysis" v
       = Some (JDict [("risk_analysis", JList []);
                      ("overall_risk_assessment", JDict [])]).
Proof.
  apply (risk_failure_is_absorbed risk_down_client no_repr "Lease"
           (JDict [])
           (JDict
              [("error", JStr "Failed to analyze risks: timeout");
               ("risk_analysis", JList []);
               ("overall_risk_assessment", JDict
                  [("total_risks_identified", JInt 0);
                   ("high_severity_count", JInt 0);
                   ("medium_severity_count", JInt 0);
                   ("low_severity_count", JInt 0);
                   ("overall_risk_score", JInt 0);
                   ("key_concerns",
                    JList [JStr "Risk analysis failed due to error"]);
                   ("recommended_action",
                    JStr "Manual review required - automated analysis unavailable")])])).
  - exact not_blank_lease.
  - reflexivity.
  - reflexivity.
  - reflexivity.
  - reflexivity.
  - reflexivity.
  - reflexivity.
  - discriminate.
  - intros a b x j H. injection H as <-. reflexivity.
Defined.

(** C3, counterexample. Clause detection succeeds, the risk analysis call
    fails, and the redline answer is [{"redline_suggestions": 5}]: [len]
    raises on the number, the outer handler catches it, and the review
    returns [success: false]. *)
Lemma odd_redline_answer_fails_review :
  ~ blank "Lease"
  /\ result (detect_clauses odd_redline_client "Lease") = Ok (JDict [])
  /\ (exists r,
        result (analyze_risks odd_redline_client no_repr "Lease" (JList []))
        = Ok r
        /\ field "error" r = Some (JStr "Failed to analyze risks: timeout"))
  /\ result (review_contract odd_redline_client no_repr "Lease")
     = Ok (JDict
         [("error",
           JStr "Contract review failed: object of type 'int' has no len()");
          ("success", JBool false)]).
Proof.
  split; [exact not_blank_lease|].
  split; [reflexivity|].
  split; [eexists; split; reflexivity|].
  reflexivity.
Qed.

(** ** Soft failures of the later stages *)

(** C4, as the code has it. When clause detection succeeded and the
    answers of the client to the risk and redline requests are usable, the
    review returns [success: true] without top-level [error] entry,
    whichever of the stages 2 to 4 fails; a failed risk analysis leaves
    the bare default [{risk_analysis: [], overall_risk_assessment: {}}] in
    its slot and a failed redline stage the bare default
    [{redline_suggestions: [], new_clauses_needed: []}], both without
    error string; a failed clarity call leaves the degraded result of the
    agent in its slot, error string included. *)
Theorem soft_failures_are_absorbed
  (client : request -> response) (py_repr : json -> string) (text : string)
  (c : json) :
  ~ blank text ->
  result (detect_clauses client text) = Ok c ->
  is_dict c = true ->
  field "error" c = None ->
  sized (field_or "detected_clauses" c (JList [])) = true ->
  (forall a b j,
      client (AnalyzeRisks a b) = Content j -> risk_usable j = true) ->
  (forall a b x j,
      client (GenerateRedlines a b x) = Content j -> redline_usable j = true) ->
  exists v r2 r4,
    result (review_contract client py_repr text) = Ok v
    /\ result (analyze_risks client py_repr text
                 (field_or "detected_clauses" c (JList []))) = Ok r2
    /\ result (generate_redlines client py_repr text
                 (settled r2 risk_default)
                 (field_or "detected_clauses" c (JList []))) = Ok r4
    /\ field "success" v = Some (JBool true)
    /\ field "error" v = None
    /\ (field "error" r2 <> None ->
        slot "risk_analysis" v
        = Some (JDict [("risk_analysis", JList []);
                       ("overall_risk_assessment", JDict [])]))
    /\ (forall e,
          client (AssessClarity (PyStr.take 2000 text)) = Raised e ->
          slot "language_clarity" v
          = Some (JDict
              [("error", JStr ("Failed to assess language clarity: " ++ e));
               ("clarity_issues", JList []);
               ("clarity_score", JInt 0);
               ("summary", JStr "Language clarity analysis failed")]))
    /\ (field "error" r4 <> None ->
        slot "redline_suggestions" v
        = Some (JDict [("redline_suggestions", JList []);
                       ("new_clauses_needed", JList [])])).
Proof.
  intros Hb Hc Hcd Hce Hdc Hrisk Hred.
  destruct (risks_total client py_repr text
              (field_or "detected_clauses" c (JList []))) as [r2 Hr2].
  destruct (clarity_total client text) as [r3 Hr3].
  destruct (redlines_total client py_repr text (settled r2 risk_default)
              (field_or "detected_clauses" c (JList []))) as [r4 Hr4].
  destruct (review_contract_completes client py_repr text c r2 r3 r4)
    as (summary & steps & Hrun); try assumption.
  - eapply risks_usable; eassumption.
  - eapply redlines_usable; eassumption.
  - eexists. exists r2, r4.
    split; [exact Hrun|]. split; [exact Hr2|]. split; [exact Hr4|].
    split; [reflexivity|]. split; [reflexivity|].
    unfold slot. simpl. split; [|split].
    + intros He. rewrite (settled_failed r2 _ He). reflexivity.
    + intros e He. rewrite (clarity_failure client text e He) in Hr3.
      injection Hr3 as <-. reflexivity.
    + intros He. rewrite (settled_failed r4 _ He). reflexivity.
Qed.

Lemma soft_failures_are_absorbed_witness :
  exists v r2 r4,
    result (review_contract late_down_client no_repr "Lease") = Ok v
    /\ result (analyze_risks late_down_client no_repr "Lease"
                 (field_or "detected_clauses" (JDict []) (JList []))) = Ok r2
    /\ result (generate_redlines late_down_client no_repr "Lease"
                 (settled r2 risk_default)
                 (field_or "detected_clauses" (JDict []) (JList []))) = Ok r4
    /\ field "success" v = Some (JBool true)
    /\ field "error" v = None
    /\ (field "error" r2 <> None ->
        slot "risk_analysis" v
        = Some (JDict [("risk_analysis", JList []);
                       ("overall_risk_assessment", JDict [])]))
    /\ (forall e,
          late_down_client (AssessClarity (PyStr.take 2000 "Lease"))
          = Raised e ->
          slot "language_clarity" v
          = Some (JDict
              [("error", JStr ("Failed to assess language clarity: " ++ e));
               ("clarity_issues", JList []);
               ("clarity_score", JInt 0);
               ("summary", JStr "Language clarity analysis failed")]))
    /\ (field "error" r4 <> None ->
        slot "redline_suggestions" v
        = Some (JDict [("redline_suggestions", JList []);
                       ("new_clauses_needed", JList [])])).
Proof.
  apply (soft_failures_are_absorbed late_down_client no_repr "Lease"
           (JDict [])).
  - exact not_blank_lease.
  - reflexivity.
  - reflexivity.
  - reflexivity.
  - reflexivity.
  - intros a b j H. injection H as <-. reflexivity.
  - intros a b x j H. discriminate H.
Defined.

(** C4, counterexample. The risk analysis call fails and every other
    answer is an empty JSON object: the review succeeds, and the
    [risk_analysis] slot holds the bare default, in which no error string
    is nested. *)
Lemma absorbed_risk_failure_keeps_no_error :
  (exists r,
     result (analyze_risks risk_down_client no_repr "Lease" (JList [])) = Ok r
     /\ field "error" r = Some (JStr "Failed to analyze risks: timeout"))
  /\ exists v,
       result (review_contract risk_down_client no_repr "Lease") = Ok v
       /\ field "success" v = Some (JBool true)
       /\ slot "risk_analysis" v
          = Some (JDict [("risk_analysis", JList []);
                         ("overall_risk_assessment", JDict [])])
       /\ ~ (exists s e, slot "risk_analysis" v = Some s
                       /\ field "error" s = Some e).
Proof.
  split; [eexists; split; reflexivity|].
  eexists. split; [reflexivity|]. split; [reflexivity|].
  split; [reflexivity|].
  intros (s & e & Hs & He). cbv in Hs. injection Hs as <-. discriminate He.
Qed.

(** ** The derived risk level *)

Lemma get_int_entry d k n :
  int_entry k (JDict d) n -> Py.get (JDict d) k (JInt 0) = Ok (JInt n).
Proof.
  unfold int_entry, field. simpl. intros [H | [H ->]]; now rewrite H.
Qed.

(** C7. With [high] the integer under [high_severity_count] and [total]
    the integer under [total_risks_identified] of the risk summary (0 when
    the entry is missing), the risk level is HIGH when [high >= 3];
    otherwise MEDIUM when [high >= 1] or [total >= 5]; otherwise LOW when
    [total >= 1]; otherwise MINIMAL. *)
Theorem overall_risk_level_thresholds
  (d : list (string * json)) (high total : Z) :
  int_entry "high_severity_count" (JDict d) high ->
  int_entry "total_risks_identified" (JDict d) total ->
  (3 <= high -> _determine_overall_risk_level (JDict d) = Ok "HIGH")
  /\ (high < 3 -> 1 <= high \/ 5 <= total ->
      _determine_overall_risk_level (JDict d) = Ok "MEDIUM")
  /\ (high < 1 -> total < 5 -> 1 <= total ->
      _determine_overall_risk_level (JDict d) = Ok "LOW")
  /\ (high < 1 -> total < 1 ->
      _determine_overall_risk_level (JDict d) = Ok "MINIMAL").
Proof.
  intros Hh Ht. unfold _determine_overall_risk_level.
  rewrite (get_int_entry d _ high Hh), (get_int_entry d _ total Ht).
  simpl.
  destruct (Z.leb_spec 3 high); simpl;
    destruct (Z.leb_spec 1 high); simpl;
    destruct (Z.leb_spec 5 total); simpl;
    destruct (Z.leb_spec 1 total); simpl;
    repeat split; intros; try reflexivity; lia.
Qed.

Lemma overall_risk_level_thresholds_witness :
  _determine_overall_risk_level
    (JDict [("total_risks_identified", JInt 5)]) = Ok "MEDIUM".
Proof.
  refine (proj1 (proj2 (overall_risk_level_thresholds
                         [("total_risks_identified", JInt 5)] 0 5 _ _)) _ _).
  - right. split; reflexivity.
  - left. reflexivity.
  - lia.
  - right. lia.
Defined.

(** The examples of the specification. *)
Example risk_level_examples :
  let level h t :=
    _determine_overall_risk_level
      (JDict [("high_severity_count", JInt h);
              ("total_risks_identified", JInt t)]) in
  level 0 0 = Ok "MINIMAL" /\ level 0 1 = Ok "LOW" /\ level 0 5 = Ok "MEDIUM"
  /\ level 1 1 = Ok "MEDIUM" /\ level 3 3 = Ok "HIGH".
Proof. repeat split. Qed.

(** ** The next steps *)

Lemma get_dict_entry v k w :
  is_dict v = true -> dict_entry k v w -> Py.get v k (JDict []) = Ok w.
Proof.
  intros Hv [_ H]. rewrite (get_dict _ _ _ Hv). unfold field_or.
  destruct H as [H | [H ->]]; now rewrite H.
Qed.

Lemma get_int_entry' v k n :
  is_dict v = true -> int_entry k v n -> Py.get v k (JInt 0) = Ok (JInt n).
Proof.
  intros Hv H. rewrite (get_dict _ _ _ Hv). unfold field_or.
  destruct H as [H | [H ->]]; now rewrite H.
Qed.

(** C9. With [critical] the integer under [summary.critical_changes] of
    the redline results and [high] the integer under
    [overall_risk_assessment.high_severity_count] of the risk results
    (0 when missing), the next steps are, in this order: one instruction
    naming [critical] when it is positive; one instruction naming [high]
    when it is positive; the three fixed instructions.  There are between
    three and five of them. *)
Theorem next_steps_recipe
  (py_repr : json -> string) (risk_results redline_results : json)
  (risk_summary redline_summary : json) (critical high : Z) :
  is_dict risk_results = true ->
  is_dict redline_results = true ->
  dict_entry "overall_risk_assessment" risk_results risk_summary ->
  dict_entry "summary" redline_results redline_summary ->
  int_entry "high_severity_count" risk_summary high ->
  int_entry "critical_changes" redline_summary critical ->
  exists steps,
    _generate_next_steps py_repr risk_results redline_results = Ok steps
    /\ steps
       = ((if (0 <? critical)%Z
           then [("Address " ++ PyStr.of_int critical
                    ++ " critical redline suggestions before proceeding")%string]
           else [])
          ++ (if (0 <? high)%Z
              then [("Mitigate " ++ PyStr.of_int high
                       ++ " high-severity risks identified")%string]
              else [])
          ++ ["Review all redline suggestions with legal counsel";
              "Negotiate key terms with counterparty";
              "Obtain final legal approval before signing"])%list
    /\ (3 <= List.length steps <= 5)%nat.
Proof.
  intros Hr Hl Hrs Hls Hh Hc.
  unfold _generate_next_steps.
  rewrite (get_dict_entry _ _ _ Hr Hrs). simpl.
  rewrite (get_int_entry' _ _ _ (proj1 Hrs) Hh). simpl.
  rewrite (get_dict_entry _ _ _ Hl Hls). simpl.
  rewrite (get_int_entry' _ _ _ (proj1 Hls) Hc). simpl.
  eexists. split; [reflexivity|].
  destruct (0 <? critical)%Z, (0 <? high)%Z; simpl; split;
    try reflexivity; lia.
Qed.

Lemma next_steps_recipe_witness :
  exists steps,
    _generate_next_steps no_repr
      (JDict [("overall_risk_assessment",
               JDict [("high_severity_count", JInt 2)])])
      (JDict []) = Ok steps
    /\ steps
       = ["Mitigate 2 high-severity risks identified";
          "Review all redline suggestions with legal counsel";
          "Negotiate key terms with counterparty";
          "Obtain final legal approval before signing"]
    /\ (3 <= List.length steps <= 5)%nat.
Proof.
  apply (next_steps_recipe no_repr
           (JDict [("overall_risk_assessment",
                    JDict [("high_severity_count", JInt 2)])])
           (JDict [])
           (JDict [("high_severity_count", JInt 2)]) (JDict []) 0 2).
  - reflexivity.
  - reflexivity.
  - split; [reflexivity | left; reflexivity].
  - split; [reflexivity | right; split; reflexivity].
  - left. reflexivity.
  - right. split; reflexivity.
Defined.

(** ** Containment up to letter case *)

Lemma is_prefix_spec p s :
  PyStr.is_prefix p s = true <-> exists post, s = p ++ post.
Proof.
  revert s. induction p as [|a p IH]; intros s; simpl.
  - split; [intros _; now exists s | reflexivity].
  - destruct s as [|b s]; split.
    + discriminate.
    + intros [post H]. discriminate H.
    + intros H. apply andb_true_iff in H. destruct H as [Hab Hp].
      apply Ascii.eqb_eq in Hab. subst b.
      apply IH in Hp. destruct Hp as [post ->]. now exists post.
    + intros [post H]. injection H as -> ->.
      apply andb_true_iff. split; [apply Ascii.eqb_refl|].
      apply IH. now exists post.
Qed.

Lemma is_infix_spec n h :
  PyStr.is_infix n h = true <-> exists pre post, h = pre ++ n ++ post.
Proof.
  induction h as [|c h IH]; simpl.
  - rewrite orb_false_r, is_prefix_spec. split.
    + intros [post H]. now exists "", post.
    + intros (pre & post & H). destruct pre; [|discriminate H].
      now exists post.
  - rewrite orb_true_iff, is_prefix_spec, IH. split.
    + intros [[post H] | (pre & post & H)].
      * now exists "", post.
      * exists (String c pre), post. simpl. now rewrite H.
    + intros (pre & post & H). destruct pre as [|a pre]; simpl in H.
      * left. now exists post.
      * right. injection H as _ H. now exists pre, post.
Qed.

Lemma lower_app a b : PyStr.lower (a ++ b) = PyStr.lower a ++ PyStr.lower b.
Proof. induction a as [|c a IH]; simpl; [reflexivity | now rewrite IH]. Qed.

Lemma lower_split s x y :
  PyStr.lower s = x ++ y ->
  exists a b, s = a ++ b /\ PyStr.lower a = x /\ PyStr.lower b = y.
Proof.
  revert s. induction x as [|c x IH]; intros s H; simpl in H.
  - now exists "", s.
  - destruct s as [|c' s]; [discriminate H|]. simpl in H.
    injection H as Hc H. destruct (IH s H) as (a & b & -> & Ha & Hb).
    exists (String c' a), b. simpl. now rewrite Hc, Ha.
Qed.

Lemma contains_ci_spec word text :
  PyStr.lower word = word ->
  PyStr.is_infix word (PyStr.lower text) = true <-> contains_ci word text.
Proof.
  intros Hw. rewrite is_infix_spec. unfold contains_ci, ci_equal. split.
  - intros (pre & post & H).
    destruct (lower_split _ _ _ H) as (a & r & -> & Ha & Hr).
    destruct (lower_split _ _ _ Hr) as (m & b & -> & Hm & Hb).
    exists a, m, b. split; [reflexivity | congruence].
  - intros (pre & mid & post & -> & Hm).
    exists (PyStr.lower pre), (PyStr.lower post).
    rewrite !lower_app. congruence.
Qed.

(** ** The order of numbers *)

Lemma Qlt_bool_iff a b : Py.Qlt_bool a b = true <-> (a < b)%Q.
Proof.
  unfold Py.Qlt_bool. rewrite negb_true_iff. split.
  - intros H. apply Qnot_le_lt. intros Hle.
    apply Qle_bool_iff in Hle. congruence.
  - intros H. destruct (Qle_bool b a) eqn:E; [|reflexivity].
    apply Qle_bool_iff in E. exfalso. exact (Qlt_not_le _ _ H E).
Qed.

Lemma lt_num v k q :
  num_val v = Some q ->
  exists b, Py.lt v k = Ok b /\ (b = true <-> (q < inject_Z k)%Q).
Proof.
  destruct v; simpl; try discriminate; intros [= <-]; eexists;
    (split; [reflexivity|]).
  - rewrite Z.ltb_lt, Zlt_Qlt. reflexivity.
  - rewrite Z.ltb_lt, Zlt_Qlt. reflexivity.
  - apply Qlt_bool_iff.
Qed.

(** ** The derived contract quality *)

Lemma get_str_entry d k s :
  str_entry k (JDict d) s -> Py.get (JDict d) k (JStr "") = Ok (JStr s).
Proof.
  unfold str_entry, field. simpl. intros [H | [H ->]]; now rewrite H.
Qed.

Lemma get_num_entry d k q :
  num_entry k (JDict d) q ->
  exists x, Py.get (JDict d) k (JInt 0) = Ok x /\ num_val x = Some q.
Proof.
  unfold num_entry, field. simpl. intros [(x & H & Hx) | [H ->]].
  - exists x. now rewrite H.
  - exists (JInt 0). now rewrite H.
Qed.

(** C8. With [coverage] the string under [coverage_assessment] of the
    clause summary (empty when missing) and [score] the number under
    [overall_risk_score] of the risk summary (0 when missing), the quality
    is GOOD when [coverage] contains "comprehensive" in any letter case and
    [score < 3]; otherwise FAIR when [coverage] contains "adequate" in any
    letter case and [score < 5]; otherwise NEEDS_IMPROVEMENT.  The tests
    are containment tests: the word may stand anywhere in the text. *)
Theorem contract_quality_grades
  (cs rs : list (string * json)) (coverage : string) (score : Q) :
  str_entry "coverage_assessment" (JDict cs) coverage ->
  num_entry "overall_risk_score" (JDict rs) score ->
  let good := contains_ci "comprehensive" coverage /\ (score < inject_Z 3)%Q in
  let fair := contains_ci "adequate" coverage /\ (score < inject_Z 5)%Q in
  (good -> _assess_contract_quality (JDict cs) (JDict rs) = Ok "GOOD")
  /\ (~ good -> fair ->
      _assess_contract_quality (JDict cs) (JDict rs) = Ok "FAIR")
  /\ (~ good -> ~ fair ->
      _assess_contract_quality (JDict cs) (JDict rs) = Ok "NEEDS_IMPROVEMENT").
Proof.
  intros Hc Hs good fair. unfold _assess_contract_quality.
  rewrite (get_str_entry cs _ coverage Hc).
  destruct (get_num_entry rs _ score Hs) as (x & -> & Hx).
  cbn [Py.bind Py.lower].
  destruct (lt_num x 3 score Hx) as (b3 & -> & H3).
  destruct (lt_num x 5 score Hx) as (b5 & -> & H5).
  assert (Hgood :
    (if PyStr.is_infix "comprehensive" (PyStr.lower coverage)
     then Ok b3 else Ok false)
    = Ok (PyStr.is_infix "comprehensive" (PyStr.lower coverage) && b3))
    by (destruct (PyStr.is_infix "comprehensive" (PyStr.lower coverage));
        reflexivity).
  assert (Hfair :
    (if PyStr.is_infix "adequate" (PyStr.lower coverage)
     then Ok b5 else Ok false)
    = Ok (PyStr.is_infix "adequate" (PyStr.lower coverage) && b5))
    by (destruct (PyStr.is_infix "adequate" (PyStr.lower coverage));
        reflexivity).
  rewrite Hgood, Hfair. cbn [Py.bind].
  assert (Eg : PyStr.is_infix "comprehensive" (PyStr.lower coverage) && b3
               = true <-> good).
  { unfold good. rewrite andb_true_iff, H3.
    rewrite (contains_ci_spec "comprehensive" coverage eq_refl). reflexivity. }
  assert (Ef : PyStr.is_infix "adequate" (PyStr.lower coverage) && b5
               = true <-> fair).
  { unfold fair. rewrite andb_true_iff, H5.
    rewrite (contains_ci_spec "adequate" coverage eq_refl). reflexivity. }
  destruct (PyStr.is_infix "comprehensive" (PyStr.lower coverage) && b3);
    destruct (PyStr.is_infix "adequate" (PyStr.lower coverage) && b5);
    cbn [Py.bind]; repeat split; intros; try reflexivity;
    repeat match goal with
           | H : ~ _ |- _ => exfalso; apply H; (apply Eg || apply Ef); reflexivity
           | H : good |- _ => apply Eg in H; discriminate H
           | H : fair |- _ => apply Ef in H; discriminate H
           end.
Qed.

Lemma contract_quality_grades_witness :
  _assess_contract_quality
    (JDict [("coverage_assessment", JStr "Fairly Comprehensive coverage")])
    (JDict [("overall_risk_score", JFloat (5 # 2))])
  = Ok "GOOD".
Proof.
  refine (proj1 (contract_quality_grades
                   [("coverage_assessment",
                     JStr "Fairly Comprehensive coverage")]
                   [("overall_risk_score", JFloat (5 # 2))]
                   "Fairly Comprehensive coverage" (5 # 2) _ _) _).
  - left. reflexivity.
  - left. eexists. split; reflexivity.
  - split.
    + exists "Fairly ", "Comprehensive", " coverage". split; reflexivity.
    + reflexivity.
Defined.

(** ** Prioritization *)

Lemma filterM_filter {A} (p : A -> res bool) (q : A -> bool) (l : list A) :
  Forall (fun x => p x = Ok (q x)) l -> Py.filterM p l = Ok (filter q l).
Proof.
  induction 1 as [|x l Hx _ IH]; simpl.
  - reflexivity.
  - rewrite Hx, IH. reflexivity.
Qed.

Lemma field_is_priority level r :
  suggestion r -> field_is "priority" level r = Ok (has_priority level r).
Proof.
  intros (d & -> & [H | [s H]]); unfold field_is, has_priority, priority;
    simpl; rewrite H; reflexivity.
Qed.

Lemma with_priority_filter level l :
  Forall suggestion l ->
  with_priority level (JList l) = Ok (filter (has_priority level) l).
Proof.
  intros H. unfold with_priority. simpl. apply filterM_filter.
  eapply Forall_impl; [|exact H]. intros r Hr. now apply field_is_priority.
Qed.

Lemma prioritize_changes_plan l :
  Forall suggestion l ->
  prioritize_changes (JList l)
  = JDict
      [("implementation_phases", JDict
          [("phase_1_critical", JDict
              [("changes", JList (filter (has_priority "critical") l));
               ("timeline", JStr "Address before any signing");
               ("negotiation_approach", JStr "Non-negotiable positions")]);
           ("phase_2_high", JDict
              [("changes", JList (filter (has_priority "high") l));
               ("timeline", JStr "Primary negotiation focus");
               ("negotiation_approach",
                JStr "Strong preference, willing to trade")]);
           ("phase_3_medium", JDict
              [("changes", JList (filter (has_priority "medium") l));
               ("timeline", JStr "Secondary negotiation items");
               ("negotiation_approach", JStr "Nice to have improvements")])]);
       ("negotiation_roadmap", JDict
          [("must_have_count",
            JInt (Z.of_nat (List.length (filter (has_priority "critical") l))));
           ("high_priority_count",
            JInt (Z.of_nat (List.length (filter (has_priority "high") l))));
           ("total_items", JInt (Z.of_nat (List.length l)))])].
Proof.
  intros H. unfold prioritize_changes.
  rewrite !(with_priority_filter _ l H). reflexivity.
Qed.

Lemma has_priority_spec level r :
  PyStr.lower level = level ->
  has_priority level r = true <-> ci_equal (priority r) level.
Proof.
  intros Hl. unfold has_priority, ci_equal. rewrite String.eqb_eq, Hl.
  reflexivity.
Qed.


(** C6. On a list of suggestion records (JSON objects whose [priority]
    entry is a string or is missing), [prioritize_changes] returns the
    plan of three phases with the literal timeline and approach labels;
    an item whose priority equals "critical", "high" or "medium" up to
    letter case is in the bucket of that level and in no other; an item
    of any other or missing priority is in no bucket; a bucket holds items
    of the input only; [must_have_count] and [high_priority_count] are the
    sizes of the critical and high buckets and [total_items] the length of
    the input. *)
Theorem prioritize_changes_partitions (l : list json) :
  Forall suggestion l ->
  exists critical high medium,
    prioritize_changes (JList l)
    = JDict
        [("implementation_phases", JDict
            [("phase_1_critical", JDict
                [("changes", JList critical);
                 ("timeline", JStr "Address before any signing");
                 ("negotiation_approach", JStr "Non-negotiable positions")]);
             ("phase_2_high", JDict
                [("changes", JList high);
                 ("timeline", JStr "Primary negotiation focus");
                 ("negotiation_approach",
                  JStr "Strong preference, willing to trade")]);
             ("phase_3_medium", JDict
                [("changes", JList medium);
                 ("timeline", JStr "Secondary negotiation items");
                 ("negotiation_approach",
                  JStr "Nice to have improvements")])]);
         ("negotiation_roadmap", JDict
            [("must_have_count", JInt (Z.of_nat (List.length critical)));
             ("high_priority_count", JInt (Z.of_nat (List.length high)));
             ("total_items", JInt (Z.of_nat (List.length l)))])]
    /\ (forall r, In r l ->
          (ci_equal (priority r) "critical" ->
           In r critical /\ ~ In r high /\ ~ In r medium)
          /\ (ci_equal (priority r) "high" ->
              ~ In r critical /\ In r high /\ ~ In r medium)
          /\ (ci_equal (priority r) "medium" ->
              ~ In r critical /\ ~ In r high /\ In r medium)
          /\ (~ ci_equal (priority r) "critical" ->
              ~ ci_equal (priority r) "high" ->
              ~ ci_equal (priority r) "medium" ->
              ~ In r critical /\ ~ In r high /\ ~ In r medium))
    /\ (forall r, In r critical \/ In r high \/ In r medium -> In r l).
Proof.
  intros H.
  exists (filter (has_priority "critical") l),
         (filter (has_priority "high") l),
         (filter (has_priority "medium") l).
  split; [now apply prioritize_changes_plan|].
  assert (Hc := fun r => has_priority_spec "critical" r eq_refl).
  assert (Hh := fun r => has_priority_spec "high" r eq_refl).
  assert (Hm := fun r => has_priority_spec "medium" r eq_refl).
  split.
  - intros r Hr. rewrite !filter_In, Hc, Hh, Hm. unfold ci_equal.
    change (PyStr.lower "critical") with "critical".
    change (PyStr.lower "high") with "high".
    change (PyStr.lower "medium") with "medium".
    repeat split; try assumption; try tauto;
      intros [_ E]; congruence.
  - intros r. rewrite !filter_In. tauto.
Qed.

Lemma prioritize_changes_partitions_witness :
  exists critical high medium,
    prioritize_changes
      (JList [JDict [("priority", JStr "Critical")];
              JDict [("priority", JStr "High")];
              JDict [("priority", JStr "low")];
              JDict [("priority", JStr "HIGH")]])
    = JDict
        [("implementation_phases", JDict
            [("phase_1_critical", JDict
                [("changes", JList critical);
                 ("timeline", JStr "Address before any signing");
                 ("negotiation_approach", JStr "Non-negotiable positions")]);
             ("phase_2_high", JDict
                [("changes", JList high);
                 ("timeline", JStr "Primary negotiation focus");
                 ("negotiation_approach",
                  JStr "Strong preference, willing to trade")]);
             ("phase_3_medium", JDict
                [("changes", JList medium);
                 ("timeline", JStr "Secondary negotiation items");
                 ("negotiation_approach",
                  JStr "Nice to have improvements")])]);
         ("negotiation_roadmap", JDict
            [("must_have_count", JInt (Z.of_nat (List.length critical)));
             ("high_priority_count", JInt (Z.of_nat (List.length high)));
             ("total_items", JInt 4)])].
Proof.
  destruct (prioritize_changes_partitions
              [JDict [("priority", JStr "Critical")];
               JDict [("priority", JStr "High")];
               JDict [("priority", JStr "low")];
               JDict [("priority", JStr "HIGH")]])
    as (critical & high & medium & Hplan & _).
  - repeat constructor; eexists; (split; [reflexivity|]); right; eexists;
      reflexivity.
  - exists critical, high, medium. exact Hplan.
Defined.

(** The example of the specification. *)
Example prioritize_changes_example :
  let plan :=
    prioritize_changes
      (JList [JDict [("priority", JStr "Critical")];
              JDict [("priority", JStr "High")];
              JDict [("priority", JStr "low")];
              JDict [("priority", JStr "HIGH")]]) in
  bucket "phase_1_critical" plan
  = Some (JList [JDict [("priority", JStr "Critical")]])
  /\ bucket "phase_2_high" plan
     = Some (JList [JDict [("priority", JStr "High")];
                    JDict [("priority", JStr "HIGH")]])
  /\ bucket "phase_3_medium" plan = Some (JList [])
  /\ field "negotiation_roadmap" plan
     = Some (JDict [("must_have_count", JInt 1);
                    ("high_priority_count", JInt 2);
                    ("total_items", JInt 4)]).
Proof. repeat split. Qed.



(** * Further properties *)

(** ** Clause recommendations *)

(** X1. [get_clause_recommendations] never returns a value: whatever the
    detected clauses are, the call raises, because the completeness score
    subtracts a number from the list of essential clauses.  On a list of
    clause records whose [clause_type] is a string or is missing, the
    exception is that [TypeError]. *)
Theorem clause_recommendations_always_raise (detected_clauses : json) :
  (exists e, get_clause_recommendations detected_clauses = Raise e)
  /\ (forall l,
        detected_clauses = JList l ->
        Forall (fun c => exists d, c = JDict d
                  /\ (Py.lookup "clause_type" d = None
                      \/ exists s, Py.lookup "clause_type" d = Some (JStr s)))
               l ->
        get_clause_recommendations detected_clauses
        = Raise "unsupported operand type(s) for -: 'list' and 'int'").
Proof.
  split.
  - unfold get_clause_recommendations.
    destruct (Py.iter detected_clauses) as [clauses|e]; cbn [Py.bind];
      [|eexists; reflexivity].
    match goal with
    | |- context [Py.mapM ?f clauses] =>
        destruct (Py.mapM f clauses) as [types|e]; cbn [Py.bind];
          [|eexists; reflexivity]
    end.
    match goal with
    | |- context [Py.filterM ?f essential_clauses] =>
        destruct (Py.filterM f essential_clauses) as [missing|e];
          cbn [Py.bind]; eexists; reflexivity
    end.
  - intros l -> Hl. unfold get_clause_recommendations. simpl Py.iter.
    cbn [Py.bind].
    assert (Ht : exists types,
               Py.mapM (fun clause => Py.get clause "clause_type" (JStr "")) l
               = Ok types
               /\ Forall (fun t => exists s, t = JStr s) types).
    { induction Hl as [|c l (d & -> & Hc) _ (types & IH & Hs)]; simpl.
      - exists []. split; [reflexivity | constructor].
      - rewrite IH. destruct Hc as [Hc | [s Hc]]; rewrite Hc; simpl;
          eexists; (split; [reflexivity|]); constructor; eauto. }
    destruct Ht as (types & -> & Hs). cbn [Py.bind].
    assert (Ha : forall essential,
               exists b, anyM (names essential) types = Ok b).
    { intros essential. induction Hs as [|t types [s ->] _ [b IH]]; simpl.
      - now exists false.
      - destruct (PyStr.is_infix (PyStr.lower essential) (PyStr.lower s));
          [now exists true | now exists b]. }
    assert (Hm : forall es,
               exists missing,
                 Py.filterM
                   (fun essential =>
                      let* covered := anyM (names essential) types in
                      Ok (negb covered)) es = Ok missing).
    { induction es as [|x es [missing IH]]; simpl.
      - now exists [].
      - destruct (Ha x) as [b ->]. simpl. rewrite IH. simpl.
        eexists. reflexivity. }
    destruct (Hm essential_clauses) as [missing ->]. reflexivity.
Qed.

Lemma clause_recommendations_always_raise_witness :
  get_clause_recommendations
    (JList [JDict [("clause_type", JStr "Indemnity")]; JDict []])
  = Raise "unsupported operand type(s) for -: 'list' and 'int'".
Proof.
  apply (proj2 (clause_recommendations_always_raise
                  (JList [JDict [("clause_type", JStr "Indemnity")];
                          JDict []]))
               [JDict [("clause_type", JStr "Indemnity")]; JDict []]).
  - reflexivity.
  - repeat constructor; eexists; (split; [reflexivity|]);
      first [ right; eexists; reflexivity | left; reflexivity ].
Defined.

(** ** Upload filter *)

Lemma cut_last_no_sep sep s :
  (forall c, In c (list_ascii_of_string s) -> c <> sep) ->
  cut_last sep s = None.
Proof.
  induction s as [|c r IH]; simpl; intros H.
  - reflexivity.
  - rewrite IH by (intros x Hx; apply H; now right).
    destruct (Ascii.eqb_spec c sep) as [E|E]; [|reflexivity].
    exfalso. apply (H c); [now left | assumption].
Qed.

Lemma cut_last_app sep stem ext :
  (forall c, In c (list_ascii_of_string ext) -> c <> sep) ->
  cut_last sep (stem ++ String sep ext) = Some (stem, ext).
Proof.
  intros H. induction stem as [|c r IH]; simpl.
  - rewrite (cut_last_no_sep sep ext H). now rewrite Ascii.eqb_refl.
  - now rewrite IH.
Qed.

Lemma is_infix_dot_absent s :
  (forall c, In c (list_ascii_of_string s) -> c <> "."%char) ->
  PyStr.is_infix "." s = false.
Proof.
  intros H. destruct (PyStr.is_infix "." s) eqn:E; [|reflexivity].
  apply is_infix_spec in E. destruct E as (pre & post & ->).
  exfalso. apply (H "."%char); [|reflexivity].
  clear H. induction pre as [|c pre IH]; simpl; auto.
Qed.

(** X2. [allowed_file] never raises and looks at the part of the name
    after its last dot only, up to letter case: a name [stem.ext], where
    [ext] has no dot, is allowed exactly when [ext] in lower case is one of
    the nine allowed extensions, whatever [stem] is; a name without dot is
    refused. *)
Theorem allowed_file_last_extension (stem ext name : string) :
  (forall c, In c (list_ascii_of_string ext) -> c <> "."%char) ->
  (forall c, In c (list_ascii_of_string name) -> c <> "."%char) ->
  allowed_file (stem ++ "." ++ ext)
  = Ok (existsb (String.eqb (PyStr.lower ext)) ALLOWED_EXTENSIONS)
  /\ allowed_file name = Ok false.
Proof.
  intros He Hn. split.
  - unfold allowed_file.
    assert (Hd : PyStr.is_infix "." (stem ++ "." ++ ext) = true).
    { apply is_infix_spec. now exists stem, ext. }
    rewrite Hd. unfold rsplit1.
    change (stem ++ "." ++ ext) with (stem ++ String "."%char ext).
    rewrite (cut_last_app "."%char stem ext He). reflexivity.
  - unfold allowed_file. now rewrite (is_infix_dot_absent name Hn).
Qed.

Lemma allowed_file_last_extension_witness :
  allowed_file ("lease.exe" ++ "." ++ "PDF") = Ok true
  /\ allowed_file "lease" = Ok false.
Proof.
  refine (allowed_file_last_extension "lease.exe" "PDF" "lease" _ _).
  - intros c H. simpl in H.
    repeat (destruct H as [<- | H]; [discriminate|]). contradiction.
  - intros c H. simpl in H.
    repeat (destruct H as [<- | H]; [discriminate|]). contradiction.
Defined.

(** ** Monotonicity of the derived grades *)

(** X3. The risk level never goes down when the counts go up: if the
    summary [d2] has at least as many high-severity risks and at least as
    many risks in total as [d1], its level is at least that of [d1] in the
    order MINIMAL, LOW, MEDIUM, HIGH. *)
Theorem risk_level_monotone
  (d1 d2 : list (string * json)) (high1 total1 high2 total2 : Z) :
  int_entry "high_severity_count" (JDict d1) high1 ->
  int_entry "total_risks_identified" (JDict d1) total1 ->
  int_entry "high_severity_count" (JDict d2) high2 ->
  int_entry "total_risks_identified" (JDict d2) total2 ->
  high1 <= high2 ->
  total1 <= total2 ->
  exists level1 level2,
    _determine_overall_risk_level (JDict d1) = Ok level1
    /\ _determine_overall_risk_level (JDict d2) = Ok level2
    /\ (level_rank level1 <= level_rank level2)%nat.
Proof.
  intros Hh1 Ht1 Hh2 Ht2 Hh Ht. unfold _determine_overall_risk_level.
  rewrite (get_int_entry d1 _ high1 Hh1), (get_int_entry d1 _ total1 Ht1).
  rewrite (get_int_entry d2 _ high2 Hh2), (get_int_entry d2 _ total2 Ht2).
  simpl.
  destruct (Z.leb_spec 3 high1), (Z.leb_spec 1 high1),
    (Z.leb_spec 5 total1), (Z.leb_spec 1 total1),
    (Z.leb_spec 3 high2), (Z.leb_spec 1 high2),
    (Z.leb_spec 5 total2), (Z.leb_spec 1 total2);
    simpl; try (exfalso; lia);
    do 2 eexists; (split; [reflexivity|]); (split; [reflexivity|]);
    cbv; lia.
Qed.

Lemma risk_level_monotone_witness :
  exists level1 level2,
    _determine_overall_risk_level
      (JDict [("total_risks_identified", JInt 4)]) = Ok level1
    /\ _determine_overall_risk_level
         (JDict [("high_severity_count", JInt 1);
                 ("total_risks_identified", JInt 4)]) = Ok level2
    /\ (level_rank level1 <= level_rank level2)%nat.
Proof.
  apply (risk_level_monotone
           [("total_risks_identified", JInt 4)]
           [("high_severity_count", JInt 1);
            ("total_risks_identified", JInt 4)] 0 4 1 4).
  - right. split; reflexivity.
  - left. reflexivity.
  - left. reflexivity.
  - left. reflexivity.
  - lia.
  - lia.
Defined.

(** X4. For one clause summary, the contract quality never goes up when
    the risk score goes up: a summary with a score at least as high gets a
    quality at most as good, in the order NEEDS_IMPROVEMENT, FAIR, GOOD. *)
Theorem contract_quality_antitone
  (cs rs1 rs2 : list (string * json)) (coverage : string) (score1 score2 : Q) :
  str_entry "coverage_assessment" (JDict cs) coverage ->
  num_entry "overall_risk_score" (JDict rs1) score1 ->
  num_entry "overall_risk_score" (JDict rs2) score2 ->
  (score1 <= score2)%Q ->
  exists quality1 quality2,
    _assess_contract_quality (JDict cs) (JDict rs1) = Ok quality1
    /\ _assess_contract_quality (JDict cs) (JDict rs2) = Ok quality2
    /\ (quality_rank quality2 <= quality_rank quality1)%nat.
Proof.
  intros Hc H1 H2 Hle. unfold _assess_contract_quality.
  rewrite (get_str_entry cs _ coverage Hc).
  destruct (get_num_entry rs1 _ score1 H1) as (x1 & -> & Hx1).
  destruct (get_num_entry rs2 _ score2 H2) as (x2 & -> & Hx2).
  cbn [Py.bind Py.lower].
  destruct (lt_num x1 3 score1 Hx1) as (a3 & -> & A3).
  destruct (lt_num x1 5 score1 Hx1) as (a5 & -> & A5).
  destruct (lt_num x2 3 score2 Hx2) as (b3 & -> & B3).
  destruct (lt_num x2 5 score2 Hx2) as (b5 & -> & B5).
  assert (I3 : b3 = true -> a3 = true).
  { intros E. apply A3. apply B3 in E. eapply Qle_lt_trans; eassumption. }
  assert (I5 : b5 = true -> a5 = true).
  { intros E. apply A5. apply B5 in E. eapply Qle_lt_trans; eassumption. }
  destruct (PyStr.is_infix "comprehensive" (PyStr.lower coverage));
    destruct (PyStr.is_infix "adequate" (PyStr.lower coverage));
    destruct a3, a5, b3, b5; cbn [Py.bind];
    try (specialize (I3 eq_refl); discriminate I3);
    try (specialize (I5 eq_refl); discriminate I5);
    do 2 eexists; (split; [reflexivity|]); (split; [reflexivity|]);
    cbv; lia.
Qed.

Lemma contract_quality_antitone_witness :
  exists quality1 quality2,
    _assess_contract_quality
      (JDict [("coverage_assessment", JStr "Adequate")])
      (JDict [("overall_risk_score", JInt 4)]) = Ok quality1
    /\ _assess_contract_quality
         (JDict [("coverage_assessment", JStr "Adequate")])
         (JDict [("overall_risk_score", JFloat (11 # 2))]) = Ok quality2
    /\ (quality_rank quality2 <= quality_rank quality1)%nat.
Proof.
  apply (contract_quality_antitone
           [("coverage_assessment", JStr "Adequate")]
           [("overall_risk_score", JInt 4)]
           [("overall_risk_score", JFloat (11 # 2))]
           "Adequate" (inject_Z 4) (11 # 2)).
  - left. reflexivity.
  - left. eexists. split; reflexivity.
  - left. eexists. split; reflexivity.
  - discriminate.
Defined.

(** ** Prioritization of malformed suggestions *)

Lemma filterM_raises {A} (p : A -> res bool) (l : list A) :
  Exists (fun x => exists e, p x = Raise e) l ->
  exists e, Py.filterM p l = Raise e.
Proof.
  induction 1 as [x l [e Hx] | x l _ [e IH]]; simpl.
  - rewrite Hx. now exists e.
  - destruct (p x) as [b|e']; simpl.
    + rewrite IH. now exists e.
    + now exists e'.
Qed.

Lemma mapM_raises {A B} (f : A -> res B) (l : list A) :
  Exists (fun x => exists e, f x = Raise e) l ->
  exists e, Py.mapM f l = Raise e.
Proof.
  induction 1 as [x l [e Hx] | x l _ [e IH]]; simpl.
  - rewrite Hx. now exists e.
  - destruct (f x) as [b|e']; simpl.
    + rewrite IH. now exists e.
    + now exists e'.
Qed.

Lemma field_is_unreadable k level r :
  unreadable k r -> exists e, field_is k level r = Raise e.
Proof.
  unfold field_is. intros [H | (v & Hv & Hs)].
  - destruct r; try discriminate H; eexists; reflexivity.
  - destruct r; try discriminate Hv. simpl in *. rewrite Hv. simpl.
    destruct v; try (eexists; reflexivity).
    exfalso. now apply (Hs s).
Qed.

(** X5. One suggestion that cannot be read spoils the whole plan: when an
    item of the list is no JSON object, or has a [priority] that is
    present and is no string (a number, [null]), [prioritize_changes]
    raises nothing and returns its error plan, with an error string and
    with empty [implementation_phases] and [negotiation_roadmap]; the
    well-formed items are in no bucket either. *)
Theorem prioritize_changes_all_or_nothing (l : list json) :
  Exists (unreadable "priority") l ->
  exists e,
    prioritize_changes (JList l)
    = JDict [("error", JStr ("Failed to prioritize changes: " ++ e));
             ("implementation_phases", JDict []);
             ("negotiation_roadmap", JDict [])].
Proof.
  intros H. unfold prioritize_changes, with_priority. simpl Py.iter.
  cbn [Py.bind].
  destruct (filterM_raises (field_is "priority" "critical") l) as [e He].
  - eapply Exists_impl; [|exact H]. intros r Hr.
    now apply field_is_unreadable.
  - rewrite He. cbn [Py.bind]. now exists e.
Qed.

Lemma prioritize_changes_all_or_nothing_witness :
  exists e,
    prioritize_changes
      (JList [JDict [("priority", JStr "critical")];
              JDict [("priority", JNull)]])
    = JDict [("error", JStr ("Failed to prioritize changes: " ++ e));
             ("implementation_phases", JDict []);
             ("negotiation_roadmap", JDict [])].
Proof.
  apply (prioritize_changes_all_or_nothing
           [JDict [("priority", JStr "critical")];
            JDict [("priority", JNull)]]).
  right. left. right. exists JNull. split; [reflexivity | discriminate].
Defined.

Lemma filter_exclusive_lengths {A} (p q r : A -> bool) (l : list A) :
  (forall x, p x = true -> q x = false /\ r x = false) ->
  (forall x, q x = true -> r x = false) ->
  (List.length (filter p l) + List.length (filter q l)
   + List.length (filter r l) <= List.length l)%nat.
Proof.
  intros Hp Hq. induction l as [|x l IH]; simpl; [lia|].
  destruct (p x) eqn:Ep.
  - destruct (Hp x Ep) as [-> ->]. simpl. lia.
  - destruct (q x) eqn:Eq.
    + rewrite (Hq x Eq). simpl. lia.
    + destruct (r x); simpl; lia.
Qed.

(** X6. The counts of a plan are consistent: on a list of suggestion
    records, the sizes of the three buckets add up to at most
    [total_items], and [must_have_count] and [high_priority_count] are the
    sizes of the first two; the difference is the number of suggestions
    that were dropped for having another priority. *)
Theorem prioritize_changes_counts (l : list json) :
  Forall suggestion l ->
  let plan := prioritize_changes (JList l) in
  exists critical high medium,
    bucket "phase_1_critical" plan = Some (JList critical)
    /\ bucket "phase_2_high" plan = Some (JList high)
    /\ bucket "phase_3_medium" plan = Some (JList medium)
    /\ field "negotiation_roadmap" plan
       = Some (JDict
           [("must_have_count", JInt (Z.of_nat (List.length critical)));
            ("high_priority_count", JInt (Z.of_nat (List.length high)));
            ("total_items", JInt (Z.of_nat (List.length l)))])
    /\ (List.length critical + List.length high + List.length medium
        <= List.length l)%nat
    /\ ((List.length critical + List.length high + List.length medium
         = List.length l)%nat
        <-> Forall (fun r => has_priority "critical" r
                             || has_priority "high" r
                             || has_priority "medium" r = true) l).
Proof.
  intros H plan. subst plan. rewrite (prioritize_changes_plan l H).
  do 3 eexists. repeat (split; [reflexivity|]).
  assert (Hx1 : forall x, has_priority "critical" x = true ->
                 has_priority "high" x = false
                 /\ has_priority "medium" x = false).
  { intros x. unfold has_priority. rewrite String.eqb_eq. intros ->.
    split; reflexivity. }
  assert (Hx2 : forall x, has_priority "high" x = true ->
                 has_priority "medium" x = false).
  { intros x. unfold has_priority. rewrite String.eqb_eq. intros ->.
    reflexivity. }
  split; [now apply filter_exclusive_lengths|].
  clear H. induction l as [|x l IH]; simpl.
  - split; [constructor | reflexivity].
  - pose proof (filter_exclusive_lengths
                  (has_priority "critical") (has_priority "high")
                  (has_priority "medium") l Hx1 Hx2) as Hle.
    rewrite Forall_cons_iff, <- IH. cbv beta.
    destruct (has_priority "critical" x) eqn:Ec.
    + destruct (Hx1 x Ec) as [Eh Em]. rewrite Eh, Em. simpl.
      split; [intros E; split; [reflexivity | lia] | intros [_ E]; lia].
    + destruct (has_priority "high" x) eqn:Eh.
      * rewrite (Hx2 x Eh). simpl.
        split; [intros E; split; [reflexivity | lia] | intros [_ E]; lia].
      * destruct (has_priority "medium" x) eqn:Em; simpl.
        -- split; [intros E; split; [reflexivity | lia] | intros [_ E]; lia].
        -- split; [intros E; exfalso; lia | intros [E _]; discriminate E].
Qed.

Lemma prioritize_changes_counts_witness :
  exists critical high medium,
    bucket "phase_1_critical"
      (prioritize_changes
         (JList [JDict [("priority", JStr "Low")];
                 JDict [("priority", JStr "MEDIUM")]]))
    = Some (JList critical)
    /\ bucket "phase_2_high"
         (prioritize_changes
            (JList [JDict [("priority", JStr "Low")];
                    JDict [("priority", JStr "MEDIUM")]]))
       = Some (JList high)
    /\ bucket "phase_3_medium"
         (prioritize_changes
            (JList [JDict [("priority", JStr "Low")];
                    JDict [("priority", JStr "MEDIUM")]]))
       = Some (JList medium)
    /\ (List.length critical + List.length high + List.length medium
        <= 2)%nat.
Proof.
  destruct (prioritize_changes_counts
              [JDict [("priority", JStr "Low")];
               JDict [("priority", JStr "MEDIUM")]])
    as (critical & high & medium & H1 & H2 & H3 & _ & H5 & _).
  - repeat constructor; eexists; (split; [reflexivity|]); right; eexists;
      reflexivity.
  - exists critical, high, medium. repeat split; assumption.
Defined.

(** ** What the agents read *)

Lemma take_take n s : PyStr.take n (PyStr.take n s) = PyStr.take n s.
Proof.
  unfold PyStr.take. revert s. induction n as [|n IH]; intros s.
  - destruct s; reflexivity.
  - destruct s as [|c s]; simpl; [reflexivity|]. now rewrite IH.
Qed.

Lemma firstn_firstn_same {A} n (l : list A) :
  firstn n (firstn n l) = firstn n l.
Proof. rewrite firstn_firstn. now rewrite Nat.min_id. Qed.

Lemma field_is_readable k level r :
  readable k r -> field_is k level r = Ok (entry_is k level r).
Proof.
  intros (d & -> & [H | [s H]]); unfold field_is, entry_is; simpl;
    rewrite H; reflexivity.
Qed.

Lemma in_firstn {A} n (l : list A) x : In x (firstn n l) -> In x l.
Proof.
  revert l. induction n as [|n IH]; intros [|y l]; simpl; intros H;
    try contradiction.
  destruct H as [H | H]; auto.
Qed.

Lemma filter_firstn_filter {A} (p : A -> bool) n (l : list A) :
  filter p (firstn n (filter p l)) = firstn n (filter p l).
Proof.
  apply forallb_filter_id. apply forallb_forall. intros x Hx.
  apply in_firstn in Hx. now apply filter_In in Hx.
Qed.

Lemma clause_context_list py_repr limit n l :
  clause_context py_repr limit n (JList l)
  = let* lines := Py.mapM (clause_line py_repr n) (firstn limit l) in
    Ok (PyStr.join nl lines).
Proof. reflexivity. Qed.

(** X7. The risk analysis reads a prefix of its inputs only: the first
    3000 characters of the contract text and the first ten detected
    clauses.  Two texts and two clause lists that agree there get the same
    result and send the same request, whatever follows, malformed or
    not. *)
Theorem analyze_risks_reads_a_prefix
  (client : request -> response) (py_repr : json -> string)
  (text1 text2 : string) (l1 l2 : list json) :
  PyStr.take 3000 text1 = PyStr.take 3000 text2 ->
  firstn 10 l1 = firstn 10 l2 ->
  result (analyze_risks client py_repr text1 (JList l1))
  = result (analyze_risks client py_repr text2 (JList l2))
  /\ calls (analyze_risks client py_repr text1 (JList l1))
     = calls (analyze_risks client py_repr text2 (JList l2)).
Proof.
  intros Ht Hl. unfold result, calls, analyze_risks.
  rewrite !clause_context_list, Ht, Hl. split; reflexivity.
Qed.

Lemma analyze_risks_reads_a_prefix_witness :
  result (analyze_risks silent_client no_repr "Lease"
            (JList (repeat (JDict []) 10 ++ [JNull])))
  = result (analyze_risks silent_client no_repr "Lease"
              (JList (repeat (JDict []) 10)))
  /\ calls (analyze_risks silent_client no_repr "Lease"
              (JList (repeat (JDict []) 10 ++ [JNull])))
     = calls (analyze_risks silent_client no_repr "Lease"
                (JList (repeat (JDict []) 10))).
Proof.
  apply (analyze_risks_reads_a_prefix silent_client no_repr "Lease" "Lease"
           (repeat (JDict []) 10 ++ [JNull]) (repeat (JDict []) 10));
    reflexivity.
Defined.

Lemma clause_line_not_dict py_repr n c :
  is_dict c = false -> exists e, clause_line py_repr n c = Raise e.
Proof.
  intros H. unfold clause_line.
  destruct c; try discriminate H; eexists; reflexivity.
Qed.

(** X8. A detected clause that is no JSON object, among the first ten,
    makes the risk analysis fail before any request is sent: the agent
    returns its degraded result with an error string, and the inference
    client is not called. *)
Theorem analyze_risks_malformed_clause
  (client : request -> response) (py_repr : json -> string)
  (text : string) (l : list json) :
  Exists (fun c => is_dict c = false) (firstn 10 l) ->
  calls (analyze_risks client py_repr text (JList l)) = []
  /\ exists e,
       result (analyze_risks client py_repr text (JList l))
       = Ok (JDict
           [("error", JStr ("Failed to analyze risks: " ++ e));
            ("risk_analysis", JList []);
            ("overall_risk_assessment", JDict
               [("total_risks_identified", JInt 0);
                ("high_severity_count", JInt 0);
                ("medium_severity_count", JInt 0);
                ("low_severity_count", JInt 0);
                ("overall_risk_score", JInt 0);
                ("key_concerns",
                 JList [JStr "Risk analysis failed due to error"]);
                ("recommended_action",
                 JStr "Manual review required - automated analysis unavailable")])]).
Proof.
  intros H.
  destruct (mapM_raises (clause_line py_repr 200) (firstn 10 l)) as [e He].
  { eapply Exists_impl; [|exact H]. intros c Hc.
    now apply clause_line_not_dict. }
  unfold result, calls, analyze_risks, try_except, mbind, lift, ret.
  rewrite clause_context_list, He. cbn [Py.bind fst snd].
  split; [reflexivity | now exists e].
Qed.

Lemma analyze_risks_malformed_clause_witness :
  calls (analyze_risks silent_client no_repr "Lease"
           (JList [JDict []; JStr "Termination"])) = []
  /\ exists e,
       result (analyze_risks silent_client no_repr "Lease"
                 (JList [JDict []; JStr "Termination"]))
       = Ok (JDict
           [("error", JStr ("Failed to analyze risks: " ++ e));
            ("risk_analysis", JList []);
            ("overall_risk_assessment", JDict
               [("total_risks_identified", JInt 0);
                ("high_severity_count", JInt 0);
                ("medium_severity_count", JInt 0);
                ("low_severity_count", JInt 0);
                ("overall_risk_score", JInt 0);
                ("key_concerns",
                 JList [JStr "Risk analysis failed due to error"]);
                ("recommended_action",
                 JStr "Manual review required - automated analysis unavailable")])]).
Proof.
  apply (analyze_risks_malformed_clause silent_client no_repr "Lease"
           [JDict []; JStr "Termination"]).
  right. left. reflexivity.
Defined.

(** X9. The redline stage reads the first five high-severity risks only
    (severity compared up to letter case), the first eight detected
    clauses and the first 3000 characters of the text: on risk records
    whose [severity_level] is a string or is missing, it behaves as on the
    risk analysis reduced to those five risks. *)
Theorem generate_redlines_reads_high_risks
  (client : request -> response) (py_repr : json -> string)
  (text : string) (rd : list (string * json)) (risks l : list json) :
  Py.lookup "risk_analysis" rd = Some (JList risks) ->
  Forall (readable "severity_level") risks ->
  let reduced :=
    JDict [("risk_analysis",
            JList (firstn 5 (filter (entry_is "severity_level" "high") risks)))]
  in
  result (generate_redlines client py_repr text (JDict rd) (JList l))
  = result (generate_redlines client py_repr (PyStr.take 3000 text)
              reduced (JList (firstn 8 l)))
  /\ calls (generate_redlines client py_repr text (JDict rd) (JList l))
     = calls (generate_redlines client py_repr (PyStr.take 3000 text)
                reduced (JList (firstn 8 l))).
Proof.
  intros Hr Hs reduced. subst reduced.
  assert (E1 : risk_context py_repr (JDict rd)
               = risk_context py_repr
                   (JDict [("risk_analysis",
                            JList (firstn 5
                                     (filter (entry_is "severity_level" "high")
                                        risks)))])).
  { unfold risk_context. simpl Py.get. rewrite Hr. cbn [Py.bind Py.iter].
    rewrite (filterM_filter _ (entry_is "severity_level" "high") risks).
    2:{ eapply Forall_impl; [|exact Hs]. intros r Hr'.
        now apply field_is_readable. }
    rewrite (filterM_filter _ (entry_is "severity_level" "high")
               (firstn 5 (filter (entry_is "severity_level" "high") risks))).
    2:{ apply Forall_forall. intros r Hin. apply field_is_readable.
        apply in_firstn in Hin. apply filter_In in Hin.
        rewrite Forall_forall in Hs. now apply Hs. }
    cbn [Py.bind]. rewrite filter_firstn_filter, firstn_firstn_same.
    reflexivity. }
  assert (E2 : clause_context py_repr 8 150 (JList l)
               = clause_context py_repr 8 150 (JList (firstn 8 l))).
  { rewrite !clause_context_list. now rewrite firstn_firstn_same. }
  unfold result, calls, generate_redlines.
  rewrite E1, E2, take_take. split; reflexivity.
Qed.

Lemma generate_redlines_reads_high_risks_witness :
  result (generate_redlines silent_client no_repr "Lease"
            (JDict [("risk_analysis",
                     JList [JDict [("severity_level", JStr "Low")];
                            JDict [("severity_level", JStr "HIGH")]])])
            (JList []))
  = result (generate_redlines silent_client no_repr (PyStr.take 3000 "Lease")
              (JDict [("risk_analysis",
                       JList [JDict [("severity_level", JStr "HIGH")]])])
              (JList (firstn 8 [])))
  /\ calls (generate_redlines silent_client no_repr "Lease"
              (JDict [("risk_analysis",
                       JList [JDict [("severity_level", JStr "Low")];
                              JDict [("severity_level", JStr "HIGH")]])])
              (JList []))
     = calls (generate_redlines silent_client no_repr (PyStr.take 3000 "Lease")
                (JDict [("risk_analysis",
                         JList [JDict [("severity_level", JStr "HIGH")]])])
                (JList (firstn 8 []))).
Proof.
  apply (generate_redlines_reads_high_risks silent_client no_repr "Lease"
           [("risk_analysis",
             JList [JDict [("severity_level", JStr "Low")];
                    JDict [("severity_level", JStr "HIGH")]])]
           [JDict [("severity_level", JStr "Low")];
            JDict [("severity_level", JStr "HIGH")]] []).
  - reflexivity.
  - repeat constructor; eexists; (split; [reflexivity|]); right; eexists;
      reflexivity.
Defined.

(** ** What a successful report tells *)

Lemma bind_ok {A B} (m : res A) (k : A -> res B) b :
  Py.bind m k = Ok b -> exists a, m = Ok a /\ k a = Ok b.
Proof. destruct m as [a|e]; simpl; [now exists a | discriminate]. Qed.

Lemma get_ok v k dflt x :
  Py.get v k dflt = Ok x -> is_dict v = true /\ x = field_or k v dflt.
Proof.
  destruct v; simpl; try discriminate. intros [= <-]. split; reflexivity.
Qed.

Lemma or_default_ok v dflt v' :
  or_default v dflt = Ok v' ->
  is_dict v' = true ->
  field "error" dflt = None ->
  field "error" v' = None /\ v' = settled v dflt.
Proof.
  unfold or_default, settled. intros H Hd Hn.
  apply bind_ok in H. destruct H as (b & Hc & H).
  destruct b.
  - apply bind_ok in H. destruct H as (x & Hx & [= <-]).
    apply getitem_ok in Hx. destruct Hx as (d & -> & Hl).
    simpl. rewrite Hl. now split.
  - injection H as <-. destruct v; try discriminate Hd.
    simpl in *. destruct (Py.lookup "error" d); [discriminate Hc|].
    now split.
Qed.

Lemma detect_clean client text c l :
  detect_clauses client text [] = (Ok c, l) ->
  Py.contains "error" c = Ok false ->
  client (DetectClauses text) = Content c.
Proof.
  unfold detect_clauses, try_except, create, ret.
  destruct (client (DetectClauses text)) as [e|j].
  - intros [= <- _]. discriminate.
  - now intros [= -> _].
Qed.

Lemma next_steps_length py_repr risk redline steps :
  _generate_next_steps py_repr risk redline = Ok steps ->
  (3 <= List.length steps <= 5)%nat.
Proof.
  unfold _generate_next_steps. intros H.
  repeat (apply bind_ok in H; destruct H as (? & _ & H)).
  revert H.
  repeat match goal with
         | |- context [if ?b then _ else _] => destruct b
         end;
    intros [= <-]; simpl; lia.
Qed.

Lemma review_success_inv client py_repr text v :
  result (review_contract client py_repr text) = Ok v ->
  field "success" v = Some (JBool true) ->
  exists c risk clarity redline steps,
    client (DetectClauses text) = Content c
    /\ result (assess_language_clarity client text) = Ok clarity
    /\ is_dict c = true /\ field "error" c = None
    /\ is_dict risk = true /\ field "error" risk = None
    /\ is_dict redline = true /\ field "error" redline = None
    /\ _generate_next_steps py_repr risk redline = Ok steps
    /\ v = JDict
         [("success", JBool true);
          ("contract_analysis", JDict
             [("clause_detection", c);
              ("risk_analysis", risk);
              ("language_clarity", clarity);
              ("redline_suggestions", redline);
              ("change_prioritization",
               prioritize_changes
                 (field_or "redline_suggestions" redline (JList [])))]);
          ("executive_summary",
           _generate_executive_summary c risk redline);
          ("next_steps", JList (map JStr steps))].
Proof.
  unfold result, review_contract.
  destruct (PyStr.is_empty text || PyStr.is_empty (PyStr.strip text)).
  { simpl. intros [= <-]. discriminate. }
  unfold try_except at 1.
  match goal with
  | |- context [match ?m [] with _ => _ end] =>
      destruct (m []) as [[v'|e] l] eqn:E
  end.
  2:{ simpl. intros [= <-]. discriminate. }
  simpl. intros [= ->] Hs.
  minv E.
  match type of E with (if ?b then _ else _) _ = _ => destruct b eqn:Eb end.
  { minv E. apply ret_ok in E. subst v. discriminate Hs. }
  minv E. cbv zeta in E. minv E. apply ret_ok in E.
  repeat match goal with
         | H : Py.get _ _ _ = Ok _ |- _ => apply get_ok in H; destruct H
         end.
  repeat match goal with
         | H : or_default _ _ = Ok _ |- _ =>
             apply or_default_ok in H; [destruct H | assumption | reflexivity]
         end.
  subst.
  match goal with
  | HS : detect_clauses _ _ [] = (Ok ?c, _),
    HC : assess_language_clarity _ _ _ = (Ok ?cl, _),
    HN : _generate_next_steps _ ?r ?l = Ok ?s |- _ =>
      exists c, r, cl, l, s
  end.
  split; [eapply detect_clean; eassumption|].
  split.
  { match goal with
    | HC : assess_language_clarity _ _ ?l = (Ok _, _) |- _ =>
        rewrite (run_tidy _ l (tidy_clarity client text)) in HC;
        injection HC as HC _; exact HC
    end. }
  split; [assumption|].
  split.
  { match goal with
    | H : Py.contains "error" ?c = Ok false, D : is_dict ?c = true |- _ =>
        rewrite (contains_dict _ _ D) in H;
        destruct (field "error" c); [discriminate H | reflexivity]
    end. }
  repeat (split; [assumption|]).
  reflexivity.
Qed.

(** X10. A report with [success: true] has no top-level [error] entry;
    its [clause_detection] slot is the answer of the client to the
    clause-detection request, which did not fail; and neither its
    [risk_analysis] slot nor its [redline_suggestions] slot carries an
    [error] entry, whether the stage succeeded or was replaced by its
    default. *)
Theorem successful_report_hides_soft_failures
  (client : request -> response) (py_repr : json -> string) (text : string)
  (v : json) :
  result (review_contract client py_repr text) = Ok v ->
  field "success" v = Some (JBool true) ->
  field "error" v = None
  /\ (exists c,
        client (DetectClauses text) = Content c
        /\ slot "clause_detection" v = Some c
        /\ field "error" c = None)
  /\ (exists r,
        slot "risk_analysis" v = Some r
        /\ is_dict r = true /\ field "error" r = None)
  /\ (exists r,
        slot "redline_suggestions" v = Some r
        /\ is_dict r = true /\ field "error" r = None).
Proof.
  intros Hr Hs.
  destruct (review_success_inv client py_repr text v Hr Hs)
    as (c & risk & clarity & redline & steps
        & Hc & Hcl & Hcd & Hce & Hrd & Hre & Hld & Hle & Hn & ->).
  split; [reflexivity|].
  split; [exists c; repeat split; assumption|].
  split; [exists risk | exists redline]; repeat split; assumption.
Qed.

Lemma successful_report_hides_soft_failures_witness :
  exists v,
    result (review_contract risk_down_client no_repr "Lease") = Ok v
    /\ field "error" v = None
    /\ (exists c,
          risk_down_client (DetectClauses "Lease") = Content c
          /\ slot "clause_detection" v = Some c
          /\ field "error" c = None)
    /\ (exists r,
          slot "risk_analysis" v = Some r
          /\ is_dict r = true /\ field "error" r = None)
    /\ (exists r,
          slot "redline_suggestions" v = Some r
          /\ is_dict r = true /\ field "error" r = None).
Proof.
  eexists. split; [reflexivity|].
  apply (successful_report_hides_soft_failures
           risk_down_client no_repr "Lease"); reflexivity.
Defined.

(** X11. In a report with [success: true] the derived parts are computed
    from the stage slots of that same report: [change_prioritization] is
    [prioritize_changes] of the suggestions in the [redline_suggestions]
    slot, [executive_summary] is [_generate_executive_summary] of the
    clause, risk and redline slots, and [next_steps] is
    [_generate_next_steps] of the risk and redline slots, with three to
    five entries. *)
Theorem successful_report_is_derived_from_its_slots
  (client : request -> response) (py_repr : json -> string) (text : string)
  (v : json) :
  result (review_contract client py_repr text) = Ok v ->
  field "success" v = Some (JBool true) ->
  exists c risk redline steps,
    slot "clause_detection" v = Some c
    /\ slot "risk_analysis" v = Some risk
    /\ slot "redline_suggestions" v = Some redline
    /\ slot "change_prioritization" v
       = Some (prioritize_changes
                 (field_or "redline_suggestions" redline (JList [])))
    /\ field "executive_summary" v
       = Some (_generate_executive_summary c risk redline)
    /\ _generate_next_steps py_repr risk redline = Ok steps
    /\ field "next_steps" v = Some (JList (map JStr steps))
    /\ (3 <= List.length steps <= 5)%nat.
Proof.
  intros Hr Hs.
  destruct (review_success_inv client py_repr text v Hr Hs)
    as (c & risk & clarity & redline & steps
        & Hc & Hcl & Hcd & Hce & Hrd & Hre & Hld & Hle & Hn & ->).
  exists c, risk, redline, steps.
  repeat (split; [reflexivity|]).
  split; [assumption|]. split; [reflexivity|].
  eapply next_steps_length; eassumption.
Qed.

Lemma successful_report_is_derived_from_its_slots_witness :
  exists v c risk redline steps,
    result (review_contract silent_client no_repr "Lease") = Ok v
    /\ slot "clause_detection" v = Some c
    /\ slot "risk_analysis" v = Some risk
    /\ slot "redline_suggestions" v = Some redline
    /\ slot "change_prioritization" v
       = Some (prioritize_changes
                 (field_or "redline_suggestions" redline (JList [])))
    /\ field "executive_summary" v
       = Some (_generate_executive_summary c risk redline)
    /\ _generate_next_steps no_repr risk redline = Ok steps
    /\ field "next_steps" v = Some (JList (map JStr steps))
    /\ (3 <= List.length steps <= 5)%nat.
Proof.
  eexists.
  destruct (successful_report_is_derived_from_its_slots
              silent_client no_repr "Lease" _ eq_refl eq_refl)
    as (c & risk & redline & steps & H).
  exists c, risk, redline, steps. split; [reflexivity | exact H].
Defined.

(** ** Every report *)

(** X12. Whatever the contract text and the client do, [review_contract]
    raises nothing and returns a JSON object with a boolean [success]:
    when it is [true] the object has a [contract_analysis] and no [error]
    entry; when it is [false] it has an [error] entry and no
    [contract_analysis], [executive_summary] or [next_steps]. *)
Theorem review_contract_always_answers
  (client : request -> response) (py_repr : json -> string) (text : string) :
  exists v b,
    result (review_contract client py_repr text) = Ok v
    /\ field "success" v = Some (JBool b)
    /\ (if b
        then field "error" v = None /\ field "contract_analysis" v <> None
        else field "error" v <> None
             /\ field "contract_analysis" v = None
             /\ field "executive_summary" v = None
             /\ field "next_steps" v = None).
Proof.
  unfold result, review_contract.
  destruct (PyStr.is_empty text || PyStr.is_empty (PyStr.strip text)).
  { eexists. exists false. simpl. repeat split; discriminate. }
  unfold try_except at 1.
  match goal with
  | |- context [match ?m [] with _ => _ end] =>
      destruct (m []) as [[v|e] l] eqn:E
  end.
  2:{ eexists. exists false. simpl. repeat split; discriminate. }
  exists v. minv E.
  match type of E with (if ?b then _ else _) _ = _ => destruct b end.
  - minv E. apply ret_ok in E. subst v.
    exists false. simpl. repeat split; discriminate.
  - minv E. cbv zeta in E. minv E. apply ret_ok in E. subst v.
    exists true. simpl. repeat split; discriminate.
Qed.

(** ** The requests of a run *)

Lemma risks_calls client py_repr text dc :
  calls (analyze_risks client py_repr text dc) = []
  \/ exists a b, calls (analyze_risks client py_repr text dc)
                 = [AnalyzeRisks a b].
Proof.
  unfold calls, analyze_risks, try_except, mbind, lift, create, ret.
  destruct (clause_context py_repr 10 200 dc) as [ctx|e]; simpl.
  - right. exists ctx, (PyStr.take 3000 text).
    destruct (client (AnalyzeRisks ctx (PyStr.take 3000 text))); reflexivity.
  - now left.
Qed.

Lemma clarity_calls client text :
  calls (assess_language_clarity client text)
  = [AssessClarity (PyStr.take 2000 text)].
Proof.
  unfold calls, assess_language_clarity, try_except, create, ret.
  destruct (client (AssessClarity (PyStr.take 2000 text))); reflexivity.
Qed.

Lemma redlines_calls client py_repr text risk dc :
  calls (generate_redlines client py_repr text risk dc) = []
  \/ exists a b c, calls (generate_redlines client py_repr text risk dc)
                   = [GenerateRedlines a b c].
Proof.
  unfold calls, generate_redlines, try_except, mbind, lift, create, ret.
  destruct (risk_context py_repr risk) as [rctx|e]; simpl; [|now left].
  destruct (clause_context py_repr 8 150 dc) as [cctx|e]; simpl; [|now left].
  right. exists rctx, cctx, (PyStr.take 3000 text).
  destruct (client (GenerateRedlines rctx cctx (PyStr.take 3000 text)));
    reflexivity.
Qed.

Ltac walk :=
  repeat
    (cbv beta iota zeta;
     match goal with
     | |- context [detect_clauses ?c ?t ?log] =>
         rewrite (run_tidy _ log (tidy_detect c t)), (detect_calls c t);
         destruct (result (detect_clauses c t))
     | |- context [analyze_risks ?c ?p ?t ?d ?log] =>
         rewrite (run_tidy _ log (tidy_risks c p t d));
         destruct (risks_calls c p t d) as [-> | (? & ? & ->)];
         destruct (result (analyze_risks c p t d))
     | |- context [assess_language_clarity ?c ?t ?log] =>
         rewrite (run_tidy _ log (tidy_clarity c t)), (clarity_calls c t);
         destruct (result (assess_language_clarity c t))
     | |- context [generate_redlines ?c ?p ?t ?r ?d ?log] =>
         rewrite (run_tidy _ log (tidy_redlines c p t r d));
         destruct (redlines_calls c p t r d) as [-> | (? & ? & ? & ->)];
         destruct (result (generate_redlines c p t r d))
     | |- context [match ?r with Ok _ => _ | Raise _ => _ end] => destruct r
     | |- context [if ?b then _ else _] => destruct b
     end).

(** X13. A run sends at most one request per stage, in the order of the
    stages, and never repeats one: the stages of the requests it sent are
    strictly increasing, so there are at most four.  When a request was
    sent at all, the first one is the clause detection on the entire
    contract text. *)
Theorem review_contract_calls_each_stage_once
  (client : request -> response) (py_repr : json -> string) (text : string) :
  increasing (map stage (calls (review_contract client py_repr text)))
  /\ (List.length (calls (review_contract client py_repr text)) <= 4)%nat
  /\ (calls (review_contract client py_repr text) = []
      \/ exists rest,
           calls (review_contract client py_repr text)
           = DetectClauses text :: rest).
Proof.
  pose (P := fun l : list request =>
               increasing (map stage l)
               /\ (List.length l <= 4)%nat
               /\ (l = [] \/ exists rest, l = DetectClauses text :: rest)).
  change (P (calls (review_contract client py_repr text))).
  unfold calls at 1. unfold review_contract.
  destruct (PyStr.is_empty text || PyStr.is_empty (PyStr.strip text)).
  { subst P. simpl. repeat split; try lia. now left. }
  unfold try_except at 1. unfold mbind, lift, ret.
  walk; subst P; simpl; repeat split; try lia; right; eexists; reflexivity.
Qed.

(** ** The summary of a failed risk analysis *)




(** ** A count that is no number *)

Lemma gt_not_numeric v k :
  numeric v = false ->
  Py.gt v k
  = Raise ("'>' not supported between instances of '" ++ Py.type_name v
             ++ "' and 'int'").
Proof. destruct v; try discriminate; reflexivity. Qed.

(** X15. A redline answer whose [summary.critical_changes] is present and
    is no number (the string "2", [null]) fails the entire review, although
    every stage succeeded: the comparison with 0 raises while the next
    steps are built, and the report is [success: false] with the message
    of that [TypeError]. *)
Theorem non_numeric_count_fails_review
  (client : request -> response) (py_repr : json -> string) (text : string)
  (c r2 r3 r4 redline_summary x : json) :
  ~ blank text ->
  result (detect_clauses client text) = Ok c ->
  is_dict c = true ->
  field "error" c = None ->
  sized (field_or "detected_clauses" c (JList [])) = true ->
  result (analyze_risks client py_repr text
            (field_or "detected_clauses" c (JList []))) = Ok r2 ->
  risk_usable r2 = true ->
  result (assess_language_clarity client text) = Ok r3 ->
  result (generate_redlines client py_repr text (settled r2 risk_default)
            (field_or "detected_clauses" c (JList []))) = Ok r4 ->
  is_dict r4 = true ->
  field "error" r4 = None ->
  sized (field_or "redline_suggestions" r4 (JList [])) = true ->
  field "summary" r4 = Some redline_summary ->
  is_dict redline_summary = true ->
  field "critical_changes" redline_summary = Some x ->
  numeric x = false ->
  result (review_contract client py_repr text)
  = Ok (JDict
      [("error",
        JStr ("Contract review failed: "
                ++ "'>' not supported between instances of '"
                ++ Py.type_name x ++ "' and 'int'"));
       ("success", JBool false)]).
Proof.
  intros Hb Hc Hcd Hce Hdc Hr2 Hu2 Hr3 Hr4 Hd4 He4 Hs4 Hsum Hsd Hx Hn.
  destruct (risk_settled r2 Hu2) as (Ra & Rb & Rc & Rd).
  assert (Hd2 : is_dict r2 = true).
  { unfold risk_usable in Hu2. now apply andb_true_iff in Hu2. }
  destruct (len_sized _ Hdc) as [n1 Hn1].
  destruct (len_sized _ Rb) as [n2 Hn2].
  destruct (len_sized _ Hs4) as [n3 Hn3].
  assert (Hset : settled r4 redline_default = r4).
  { unfold settled. now rewrite He4. }
  assert (Hsteps :
    _generate_next_steps py_repr (settled r2 risk_default) r4
    = Raise ("'>' not supported between instances of '" ++ Py.type_name x
               ++ "' and 'int'")).
  { unfold _generate_next_steps.
    rewrite (get_dict _ _ _ Ra). cbn [Py.bind].
    rewrite (get_dict _ _ _ Rc). cbn [Py.bind].
    rewrite (get_dict _ _ _ Hd4). cbn [Py.bind].
    unfold field_or at 1. rewrite Hsum.
    rewrite (get_dict _ _ _ Hsd). cbn [Py.bind].
    unfold field_or at 1. rewrite Hx.
    rewrite (gt_not_numeric x 0 Hn). reflexivity. }
  unfold result, review_contract.
  rewrite (guard_not_blank text Hb).
  unfold try_except at 1. unfold mbind, lift.
  rewrite (run_tidy _ _ (tidy_detect client text)), Hc.
  rewrite (contains_dict _ _ Hcd), Hce.
  rewrite (get_dict _ _ _ Hcd), Hn1.
  rewrite (run_tidy _ _ (tidy_risks client py_repr text _)), Hr2.
  fold risk_default. rewrite (or_default_dict _ _ Hd2).
  rewrite (get_dict _ _ _ Ra), Hn2.
  rewrite (run_tidy _ _ (tidy_clarity client text)), Hr3.
  rewrite (run_tidy _ _ (tidy_redlines client py_repr text _ _)), Hr4.
  fold redline_default. rewrite (or_default_dict _ _ Hd4), Hset.
  rewrite (get_dict _ _ _ Hd4), Hn3, Hsteps.
  reflexivity.
Qed.

Lemma non_numeric_count_fails_review_witness :
  result (review_contract string_count_client no_repr "Lease")
  = Ok (JDict
      [("error",
        JStr ("Contract review failed: "
                ++ "'>' not supported between instances of '"
                ++ Py.type_name (JStr "2") ++ "' and 'int'"));
       ("success", JBool false)]).
Proof.
  apply (non_numeric_count_fails_review string_count_client no_repr "Lease"
           (JDict []) (JDict []) (JDict [])
           (JDict [("redline_suggestions", JList []);
                   ("summary", JDict [("critical_changes", JStr "2")])])
           (JDict [("critical_changes", JStr "2")]) (JStr "2"));
    try reflexivity.
  exact not_blank_lease.
Defined.

(** ** Answers that are never inspected *)

(** X16. The [language_clarity] slot of a successful report is not
    validated: it is the answer of the client to the clarity request on the
    first 2000 characters of the text, stored as it is whatever JSON value
    it is, or, when that call raised, the degraded result of the agent with
    the message of the exception. *)
Theorem clarity_slot_is_stored_unchecked
  (client : request -> response) (py_repr : json -> string) (text : string)
  (v : json) :
  result (review_contract client py_repr text) = Ok v ->
  field "success" v = Some (JBool true) ->
  exists clarity,
    slot "language_clarity" v = Some clarity
    /\ (client (AssessClarity (PyStr.take 2000 text)) = Content clarity
        \/ exists e,
             client (AssessClarity (PyStr.take 2000 text)) = Raised e
             /\ clarity
                = JDict
                    [("error",
                      JStr ("Failed to assess language clarity: " ++ e));
                     ("clarity_issues", JList []);
                     ("clarity_score", JInt 0);
                     ("summary", JStr "Language clarity analysis failed")]).
Proof.
  intros Hr Hs.
  destruct (review_success_inv client py_repr text v Hr Hs)
    as (c & risk & clarity & redline & steps
        & Hc & Hcl & Hcd & Hce & Hrd & Hre & Hld & Hle & Hn & ->).
  exists clarity. split; [reflexivity|].
  revert Hcl. unfold result, assess_language_clarity, try_except, create, ret.
  destruct (client (AssessClarity (PyStr.take 2000 text))) as [e|j]; simpl.
  - intros [= <-]. right. now exists e.
  - intros [= <-]. now left.
Qed.

Lemma clarity_slot_is_stored_unchecked_witness :
  exists v clarity,
    result (review_contract late_down_client no_repr "Lease") = Ok v
    /\ slot "language_clarity" v = Some clarity
    /\ (late_down_client (AssessClarity (PyStr.take 2000 "Lease"))
        = Content clarity
        \/ exists e,
             late_down_client (AssessClarity (PyStr.take 2000 "Lease"))
             = Raised e
             /\ clarity
                = JDict
                    [("error",
                      JStr ("Failed to assess language clarity: " ++ e));
                     ("clarity_issues", JList []);
                     ("clarity_score", JInt 0);
                     ("summary", JStr "Language clarity analysis failed")]).
Proof.
  eexists.
  destruct (clarity_slot_is_stored_unchecked
              late_down_client no_repr "Lease" _ eq_refl eq_refl)
    as (clarity & H).
  exists clarity. split; [reflexivity | exact H].
Defined.

(** ** Malformed answers of the earlier stages *)

Lemma risk_context_unreadable py_repr rd risks :
  Py.lookup "risk_analysis" rd = Some (JList risks) ->
  Exists (unreadable "severity_level") risks ->
  exists e, risk_context py_repr (JDict rd) = Raise e.
Proof.
  intros Hr H. unfold risk_context. simpl Py.get. rewrite Hr.
  cbn [Py.bind Py.iter].
  destruct (filterM_raises (field_is "severity_level" "high") risks)
    as [e He].
  - eapply Exists_impl; [|exact H]. intros r Hu.
    now apply field_is_unreadable.
  - rewrite He. now exists e.
Qed.

(** X17. One risk record that cannot be read, anywhere in the list of the
    risk analysis (an item that is no JSON object, or a [severity_level]
    that is no string), makes the redline stage fail before any request is
    sent: the agent returns its degraded result with an error string and
    no suggestion, and the inference client is not called. *)
Theorem generate_redlines_malformed_risk
  (client : request -> response) (py_repr : json -> string) (text : string)
  (rd : list (string * json)) (risks : list json) (detected_clauses : json) :
  Py.lookup "risk_analysis" rd = Some (JList risks) ->
  Exists (unreadable "severity_level") risks ->
  calls (generate_redlines client py_repr text (JDict rd) detected_clauses)
  = []
  /\ exists e r,
       result (generate_redlines client py_repr text (JDict rd)
                 detected_clauses) = Ok r
       /\ field "error" r = Some (JStr ("Failed to generate redlines: " ++ e))
       /\ field "redline_suggestions" r = Some (JList [])
       /\ field "new_clauses_needed" r = Some (JList []).
Proof.
  intros Hr H.
  destruct (risk_context_unreadable py_repr rd risks Hr H) as [e He].
  unfold result, calls, generate_redlines, try_except, mbind, lift, ret.
  rewrite He. cbn [fst snd].
  split; [reflexivity|]. exists e. eexists.
  split; [reflexivity|]. repeat split.
Qed.

Lemma generate_redlines_malformed_risk_witness :
  calls (generate_redlines silent_client no_repr "Lease"
           (JDict [("risk_analysis",
                    JList [JDict [("severity_level", JStr "high")];
                           JStr "liability is unlimited"])])
           (JList [])) = []
  /\ exists e r,
       result (generate_redlines silent_client no_repr "Lease"
                 (JDict [("risk_analysis",
                          JList [JDict [("severity_level", JStr "high")];
                                 JStr "liability is unlimited"])])
                 (JList [])) = Ok r
       /\ field "error" r = Some (JStr ("Failed to generate redlines: " ++ e))
       /\ field "redline_suggestions" r = Some (JList [])
       /\ field "new_clauses_needed" r = Some (JList []).
Proof.
  apply (generate_redlines_malformed_risk silent_client no_repr "Lease"
           [("risk_analysis",
             JList [JDict [("severity_level", JStr "high")];
                    JStr "liability is unlimited"])]
           [JDict [("severity_level", JStr "high")];
            JStr "liability is unlimited"] (JList [])).
  - reflexivity.
  - right. left. left. reflexivity.
Defined.

(** X18. A clause-detection answer that is valid JSON but no JSON object
    (an array, a string, a number, [null]) fails the review: the report is
    [success: false] with an error string that starts with
    "Contract review failed: ", and no later stage is called. *)
Theorem non_object_clause_answer_fails_review
  (client : request -> response) (py_repr : json -> string) (text : string)
  (j : json) :
  ~ blank text ->
  client (DetectClauses text) = Content j ->
  is_dict j = false ->
  calls (review_contract client py_repr text) = [DetectClauses text]
  /\ exists e,
       result (review_contract client py_repr text)
       = Ok (JDict [("error", JStr ("Contract review failed: " ++ e));
                    ("success", JBool false)]).
Proof.
  intros Hb Hc Hj.
  assert (Hd : detect_clauses client text [] = (Ok j, [DetectClauses text])).
  { unfold detect_clauses, try_except, create. now rewrite Hc. }
  unfold calls, result, review_contract.
  rewrite (guard_not_blank text Hb).
  unfold try_except at 1 2. unfold mbind, lift, ret. rewrite Hd.
  destruct j; try discriminate Hj; cbn [Py.contains];
    try (split; [reflexivity | eexists; reflexivity]).
  - destruct (PyStr.is_infix "error" s);
      (split; [reflexivity | eexists; reflexivity]).
  - destruct (existsb (Py.is_str "error") l);
      (split; [reflexivity | eexists; reflexivity]).
Qed.

Lemma non_object_clause_answer_fails_review_witness :
  calls (review_contract array_client no_repr "Lease")
  = [DetectClauses "Lease"]
  /\ exists e,
       result (review_contract array_client no_repr "Lease")
       = Ok (JDict [("error", JStr ("Contract review failed: " ++ e));
                    ("success", JBool false)]).
Proof.
  apply (non_object_clause_answer_fails_review array_client no_repr "Lease"
           (JList [JStr "Termination"])).
  - exact not_blank_lease.
  - reflexivity.
  - reflexivity.
Defined.
